(** * hivecog: the hive coordination protocol of the autognosis engine

    A shallow embedding of [src/autognosis/autognosis.c] (knowledge store,
    topology, healing rules) and [src/autognosis/hive_coordination.c]
    (messages, knowledge packets, healing escalation, the periodic cycle),
    followed by the properties of the protocol.

    Conventions of the embedding.
    - [float] is IEEE-754 binary32; every operation rounds to nearest, ties
      to even (the Standard Library's [SpecFloat] at precision 24, maximal
      exponent 128), with no excess precision and no fused multiply-add.
      Literals such as [0.1f] are the binary32 values the C constants
      denote.
    - [uint32_t] is a [Z] in [0, 2^32) and wraps on increment; [time_t] is
      a [Z] (seconds).
    - [time(NULL)] is an input: a function that reads the clock takes the
      reading as its argument [now].
    - The linked lists (atoms, rules, topology nodes) are lists in link
      order, head first.  A pointer to an atom of a store is its position
      in that list.
    - Pointer arguments are values: the [if (!x) return] guards on
      arguments and the [calloc] failures have no counterpart.  A pointer
      field the code tests before use ([topology], [global_knowledge]) is
      an [option].
    - [send_message_impl] is the transport boundary (the source only logs
      there); an embedded function returns the list of messages it handed
      to it, oldest first. *)

From Stdlib Require Import ZArith Bool Ascii String List Sorted Lia QArith Qabs.
From Stdlib Require Import Floats.SpecFloat.
From stdpp Require Import base list.

Local Open Scope Z_scope.

(* ===================================================================== *)
(** ** Machine numbers *)
(* ===================================================================== *)

(** The C type [float]. *)
Definition f32 : Type := spec_float.

Module F32.

Definition prec : Z := 24.
Definition emax : Z := 128.

Definition add : f32 -> f32 -> f32 := SFadd prec emax.
Definition mul : f32 -> f32 -> f32 := SFmul prec emax.
Definition div : f32 -> f32 -> f32 := SFdiv prec emax.

(** [x < y], [x > y] and [x == y] of C: false as soon as one side is a
    NaN. *)
Definition ltb (x y : f32) : bool := SFltb x y.
Definition gtb (x y : f32) : bool := SFltb y x.
Definition eqb (x y : f32) : bool := SFeqb x y.

(** Conversion of an integer, [(float)n]. *)
Definition of_Z (n : Z) : f32 := binary_normalize prec emax n 0 false.

(** The binary32 value nearest to the decimal [n/d]: what a literal
    denotes. *)
Definition of_decimal (n d : Z) : f32 := div (of_Z n) (of_Z d).

Definition zero : f32 := S754_zero false.
Definition lit_0_1 : f32 := S754_finite false 13421773 (-27).
Definition lit_0_3 : f32 := S754_finite false 10066330 (-25).
Definition lit_0_4 : f32 := S754_finite false 13421773 (-25).
Definition lit_0_5 : f32 := S754_finite false 8388608 (-24).
Definition lit_0_7 : f32 := S754_finite false 11744051 (-24).
Definition lit_0_8 : f32 := S754_finite false 13421773 (-24).
Definition lit_0_9 : f32 := S754_finite false 15099494 (-24).
Definition lit_1_0 : f32 := S754_finite false 8388608 (-23).
Definition lit_2_0 : f32 := S754_finite false 8388608 (-22).
Definition lit_100 : f32 := S754_finite false 13107200 (-17).

(** The lesser of [a] and [b], as the usual C macro
    [((a) < (b) ? (a) : (b))] computes it. *)
Definition min (a b : f32) : f32 := if ltb a b then a else b.

(** The exact rational value of a finite number. *)
Definition to_Q (x : f32) : option Q :=
  match x with
  | S754_zero _ => Some 0%Q
  | S754_finite s m e =>
      let mag := match e with
                 | Zneg p => Qmake (Zpos m) (2 ^ p)%positive
                 | _ => inject_Z (Zpos m * 2 ^ e)
                 end in
      Some (if s then Qopp mag else mag)
  | _ => None
  end.

(** [within x q eps]: [x] is finite and [|x - q| < eps]. *)
Definition within (x : f32) (q eps : Q) : Prop :=
  match to_Q x with
  | Some v => Qlt (Qabs (v - q)) eps
  | None => False
  end.

End F32.

Arguments F32.add : simpl never.
Arguments F32.mul : simpl never.
Arguments F32.div : simpl never.
Arguments F32.ltb : simpl never.
Arguments F32.gtb : simpl never.
Arguments F32.eqb : simpl never.
Arguments F32.of_Z : simpl never.
Arguments F32.min : simpl never.

(** [uint32_t] arithmetic. *)
Definition UINT32_MAX : Z := 4294967295.
Definition u32_incr (n : Z) : Z := (n + 1) mod 2 ^ 32.

(* ===================================================================== *)
(** ** C strings *)
(* ===================================================================== *)

(** [strncpy(dst, src, n)] into a zeroed buffer of [n + 1] bytes: the first
    [n] characters of [src]. *)
Definition strncpy (n : nat) (src : string) : string := substring 0 n src.

(** [strcmp(a, b) == 0]. *)
Definition streq (a b : string) : bool := String.eqb a b.

(** [strstr(haystack, needle) != NULL]. *)
Fixpoint strstr (haystack needle : string) : bool :=
  String.prefix needle haystack ||
  match haystack with
  | EmptyString => false
  | String _ rest => strstr rest needle
  end.

(* ===================================================================== *)
(** ** autognosis.h: the knowledge store *)
(* ===================================================================== *)

Inductive atom_type_t :=
| ATOM_NODE | ATOM_LINK | ATOM_CONCEPT | ATOM_PREDICATE | ATOM_EVALUATION.

(** [struct atom]; [next] is the list structure, [outgoing] is never set. *)
Record atom_t := mk_atom {
  a_id : Z;
  a_type : atom_type_t;
  a_name : string;
  a_truth_value : f32;
  a_confidence : f32;
  a_importance : f32;
  a_timestamp : Z
}.

Record atom_space_t := mk_space {
  atoms : list atom_t;
  atom_count : Z;
  next_id : Z
}.

Definition set_truth (a : atom_t) (t c : f32) : atom_t :=
  mk_atom (a_id a) (a_type a) (a_name a) t c (a_importance a) (a_timestamp a).
Definition set_importance (a : atom_t) (i : f32) : atom_t :=
  mk_atom (a_id a) (a_type a) (a_name a) (a_truth_value a) (a_confidence a)
          i (a_timestamp a).
Definition set_timestamp (a : atom_t) (t : Z) : atom_t :=
  mk_atom (a_id a) (a_type a) (a_name a) (a_truth_value a) (a_confidence a)
          (a_importance a) t.

Definition atomspace_create : atom_space_t := mk_space [] 0 1.

(** The loop of [atomspace_find_atom]: the position of the first atom whose
    stored name compares equal to [name]. *)
Fixpoint find_from (l : list atom_t) (name : string) : option nat :=
  match l with
  | [] => None
  | a :: rest =>
      if streq (a_name a) name then Some 0%nat
      else option_map S (find_from rest name)
  end.

Definition atomspace_find_atom (space : atom_space_t) (name : string)
  : option nat :=
  find_from (atoms space) name.

(** [atomspace_add_atom]: the new store and the position of the atom it
    returns. *)
Definition atomspace_add_atom (space : atom_space_t) (type : atom_type_t)
    (name : string) (now : Z) : atom_space_t * nat :=
  match atomspace_find_atom space name with
  | Some i =>
      (mk_space
         (alter (fun a => set_importance a (F32.add (a_importance a) F32.lit_0_1))
                i (atoms space))
         (atom_count space) (next_id space),
       i)
  | None =>
      let atom := mk_atom (next_id space) type (strncpy 255 name)
                          F32.lit_0_5 F32.lit_0_5 F32.lit_1_0 now in
      (mk_space (atom :: atoms space)
                (u32_incr (atom_count space))
                (u32_incr (next_id space)),
       0%nat)
  end.

Definition atomspace_update_truth_value (atom : atom_t) (truth confidence : f32)
    (now : Z) : atom_t :=
  let old_weight := a_confidence atom in
  let new_weight := confidence in
  let total_weight := F32.add old_weight new_weight in
  let atom :=
    if F32.gtb total_weight F32.zero then
      let t := F32.div (F32.add (F32.mul (a_truth_value atom) old_weight)
                                (F32.mul truth new_weight))
                       total_weight in
      let c := F32.div total_weight F32.lit_2_0 in
      let c := if F32.gtb c F32.lit_1_0 then F32.lit_1_0 else c in
      set_truth atom t c
    else atom in
  set_timestamp atom now.


(* ===================================================================== *)
(** ** autognosis.h: topology, healing rules, the engine *)
(* ===================================================================== *)

Record network_node_t := mk_node {
  n_node_id : Z;
  n_address : string;
  n_health_score : f32;
  n_trust_level : f32;
  n_last_seen : Z;
  n_capabilities : Z
}.

Record network_topology_t := mk_topology {
  nodes : list network_node_t;
  node_count : Z;
  overall_health : f32;
  t_last_update : Z
}.

Definition topology_create (now : Z) : network_topology_t :=
  mk_topology [] 0 F32.lit_1_0 now.

(** The first loop of [topology_add_node]: refresh the node [id] if it is
    known. *)
Fixpoint refresh_node (l : list network_node_t) (id : Z) (address : string)
    (now : Z) : option (list network_node_t) :=
  match l with
  | [] => None
  | n :: rest =>
      if n_node_id n =? id then
        Some (mk_node (n_node_id n) (strncpy 63 address) (n_health_score n)
                      (n_trust_level n) now (n_capabilities n) :: rest)
      else option_map (cons n) (refresh_node rest id address now)
  end.

Definition topology_add_node (topology : network_topology_t) (id : Z)
    (address : string) (now : Z) : network_topology_t :=
  match refresh_node (nodes topology) id address now with
  | Some l =>
      mk_topology l (node_count topology) (overall_health topology)
                  (t_last_update topology)
  | None =>
      let node := mk_node id (strncpy 63 address) F32.lit_1_0 F32.lit_0_5 now 0 in
      mk_topology (node :: nodes topology) (u32_incr (node_count topology))
                  (overall_health topology) now
  end.

(** The first loop of [topology_update_node_health]. *)
Fixpoint set_node_health (l : list network_node_t) (id : Z) (health : f32)
    (now : Z) : list network_node_t :=
  match l with
  | [] => []
  | n :: rest =>
      if n_node_id n =? id then
        mk_node (n_node_id n) (n_address n) health (n_trust_level n) now
                (n_capabilities n) :: rest
      else n :: set_node_health rest id health now
  end.

(** Its second loop: the sum and the number of the health scores above
    [0.1f]. *)
Fixpoint healthy_total (l : list network_node_t) (total_health : f32)
    (healthy_nodes : Z) : f32 * Z :=
  match l with
  | [] => (total_health, healthy_nodes)
  | n :: rest =>
      if F32.gtb (n_health_score n) F32.lit_0_1 then
        healthy_total rest (F32.add total_health (n_health_score n))
                      (healthy_nodes + 1)
      else healthy_total rest total_health healthy_nodes
  end.

Definition topology_update_node_health (topology : network_topology_t)
    (id : Z) (health : f32) (now : Z) : network_topology_t :=
  let l := set_node_health (nodes topology) id health now in
  let '(total_health, healthy_nodes) := healthy_total l F32.zero 0 in
  mk_topology l (node_count topology)
    (if healthy_nodes >? 0 then F32.div total_health (F32.of_Z healthy_nodes)
     else F32.zero)
    now.

Inductive healing_action_t :=
| HEALING_NONE | HEALING_RETRY | HEALING_REROUTE | HEALING_RECONSTRUCT
| HEALING_MIGRATE.

Record healing_rule_t := mk_rule {
  r_condition : string;
  r_action : healing_action_t;
  r_confidence : f32;
  r_success_count : Z;
  r_attempt_count : Z
}.

Definition healing_create_rule (condition : string) (action : healing_action_t)
    (confidence : f32) : healing_rule_t :=
  mk_rule (strncpy 255 condition) action confidence 0 0.

(** [struct self_image], without its private knowledge base, identity and
    capability mask, which the coordinator never reads. *)
Record self_image_t := mk_self_image {
  si_health_score : f32;
  si_autonomy_level : f32;
  si_last_update : Z
}.

Record autognosis_engine_t := mk_engine {
  self_image : self_image_t;
  topology : option network_topology_t;
  healing_rules : list healing_rule_t;
  global_knowledge : option atom_space_t;
  running : bool;
  last_cognitive_cycle : Z;
  cognitive_load : f32
}.

Definition set_topology (e : autognosis_engine_t)
    (t : option network_topology_t) : autognosis_engine_t :=
  mk_engine (self_image e) t (healing_rules e) (global_knowledge e)
            (running e) (last_cognitive_cycle e) (cognitive_load e).
Definition set_global_knowledge (e : autognosis_engine_t)
    (k : option atom_space_t) : autognosis_engine_t :=
  mk_engine (self_image e) (topology e) (healing_rules e) k
            (running e) (last_cognitive_cycle e) (cognitive_load e).
Definition set_autonomy_level (e : autognosis_engine_t) (a : f32)
  : autognosis_engine_t :=
  mk_engine (mk_self_image (si_health_score (self_image e)) a
                           (si_last_update (self_image e)))
            (topology e) (healing_rules e) (global_knowledge e)
            (running e) (last_cognitive_cycle e) (cognitive_load e).

Definition healing_add_rule (e : autognosis_engine_t) (rule : healing_rule_t)
  : autognosis_engine_t :=
  mk_engine (self_image e) (topology e) (rule :: healing_rules e)
            (global_knowledge e) (running e) (last_cognitive_cycle e)
            (cognitive_load e).

(** The loop of [healing_evaluate_problem], carrying [best_rule] and
    [best_score]. *)
Fixpoint best_rule_from (l : list healing_rule_t) (problem_desc : string)
    (best_rule : option healing_rule_t) (best_score : f32)
  : option healing_rule_t :=
  match l with
  | [] => best_rule
  | current :: rest =>
      if strstr problem_desc (r_condition current) then
        let success_rate :=
          if r_attempt_count current >? 0 then
            F32.div (F32.of_Z (r_success_count current))
                    (F32.of_Z (r_attempt_count current))
          else F32.lit_0_5 in
        let score := F32.mul (r_confidence current) success_rate in
        if F32.gtb score best_score then
          best_rule_from rest problem_desc (Some current) score
        else best_rule_from rest problem_desc best_rule best_score
      else best_rule_from rest problem_desc best_rule best_score
  end.

Definition healing_evaluate_problem (engine : autognosis_engine_t)
    (problem_desc : string) : healing_action_t :=
  match best_rule_from (healing_rules engine) problem_desc None F32.zero with
  | Some rule => r_action rule
  | None => HEALING_RETRY
  end.

(** [autognosis_create], for the parts kept here. *)
Definition autognosis_create (now : Z) : autognosis_engine_t :=
  let e := mk_engine (mk_self_image F32.lit_1_0 F32.lit_0_5 now)
                     (Some (topology_create now)) []
                     (Some atomspace_create) false now F32.zero in
  let e := healing_add_rule e (healing_create_rule "timeout"%string HEALING_RETRY F32.lit_0_7) in
  let e := healing_add_rule e (healing_create_rule "connection_failed"%string HEALING_REROUTE F32.lit_0_8) in
  healing_add_rule e (healing_create_rule "node_failure"%string HEALING_MIGRATE F32.lit_0_9).

(* ===================================================================== *)
(** ** hive_coordination.h: messages and the coordinator *)
(* ===================================================================== *)

Inductive hive_message_type_t :=
| HIVE_MSG_HEARTBEAT | HIVE_MSG_KNOWLEDGE_SHARE | HIVE_MSG_HEALING_REQUEST
| HIVE_MSG_HEALING_RESPONSE | HIVE_MSG_TOPOLOGY_UPDATE
| HIVE_MSG_EMERGENCY_SIGNAL.

Definition bytes : Type := list Byte.byte.

(** [struct hive_message].  [data] holds the bytes [memcpy] wrote at the
    start of the 512-byte buffer; the rest of the buffer is zero. *)
Record hive_message_t := mk_message {
  sender_id : Z;
  recipient_id : Z;
  m_type : hive_message_type_t;
  sequence_number : Z;
  m_timestamp : Z;
  data_length : Z;
  data : bytes
}.

Record knowledge_packet_t := mk_packet {
  kp_atom_name : string;
  kp_atom_type : atom_type_t;
  kp_truth_value : f32;
  kp_confidence : f32;
  kp_importance : f32;
  kp_timestamp : Z
}.

Record healing_request_t := mk_request {
  problem_id : Z;
  problem_description : string;
  severity : f32;
  requesting_node : Z;
  request_time : Z;
  suggested_action : healing_action_t
}.

(** [struct healing_response]; [additional_info] is never written. *)
Record healing_response_t := mk_response {
  rs_problem_id : Z;
  responding_node : Z;
  recommended_action : healing_action_t;
  rs_confidence : f32
}.

(** [struct hive_coordinator].  [hive_coordinator_create] refuses a null
    engine and nothing reassigns [local_engine], so the engine is held by
    value; the function pointers are set once, to the [_impl] functions,
    and a call through them is a call of those. *)
Record hive_coordinator_t := mk_coordinator {
  local_engine : autognosis_engine_t;
  node_id : Z;
  sequence_counter : Z;
  last_heartbeat : Z;
  last_knowledge_sync : Z;
  collective_intelligence_score : f32
}.

Definition set_local_engine (c : hive_coordinator_t) (e : autognosis_engine_t)
  : hive_coordinator_t :=
  mk_coordinator e (node_id c) (sequence_counter c) (last_heartbeat c)
                 (last_knowledge_sync c) (collective_intelligence_score c).
Definition set_sequence_counter (c : hive_coordinator_t) (n : Z)
  : hive_coordinator_t :=
  mk_coordinator (local_engine c) (node_id c) n (last_heartbeat c)
                 (last_knowledge_sync c) (collective_intelligence_score c).
Definition set_last_heartbeat (c : hive_coordinator_t) (t : Z)
  : hive_coordinator_t :=
  mk_coordinator (local_engine c) (node_id c) (sequence_counter c) t
                 (last_knowledge_sync c) (collective_intelligence_score c).
Definition set_last_knowledge_sync (c : hive_coordinator_t) (t : Z)
  : hive_coordinator_t :=
  mk_coordinator (local_engine c) (node_id c) (sequence_counter c)
                 (last_heartbeat c) t (collective_intelligence_score c).
Definition set_collective_intelligence_score (c : hive_coordinator_t) (s : f32)
  : hive_coordinator_t :=
  mk_coordinator (local_engine c) (node_id c) (sequence_counter c)
                 (last_heartbeat c) (last_knowledge_sync c) s.
Definition set_sequence_number (m : hive_message_t) (n : Z) : hive_message_t :=
  mk_message (sender_id m) (recipient_id m) (m_type m) n (m_timestamp m)
             (data_length m) (data m).

(** *** Structure sizes

    [sizeof] under the LP64 layout rules: each member at the next multiple
    of its alignment, the whole rounded up to the largest alignment.  A
    member is given as (size, alignment). *)
Definition align_up (off al : Z) : Z := (off + al - 1) / al * al.

Definition struct_size (members : list (Z * Z)) : Z :=
  align_up (fold_left (fun off m => align_up off (snd m) + fst m) members 0)
           (fold_left (fun al m => Z.max al (snd m)) members 1).

Definition sizeof_data : Z := 512.
Definition sizeof_knowledge_packet_t : Z :=
  struct_size [(256, 1); (4, 4); (4, 4); (4, 4); (4, 4); (8, 8)].
Definition sizeof_healing_request_t : Z :=
  struct_size [(4, 4); (256, 1); (4, 4); (4, 4); (8, 8); (4, 4)].
Definition sizeof_healing_response_t : Z :=
  struct_size [(4, 4); (4, 4); (4, 4); (4, 4); (128, 1)].

(* ===================================================================== *)
(** ** hive_coordination.c *)
(* ===================================================================== *)

Definition hive_message_create (sender recipient : Z) (type : hive_message_type_t)
    (now : Z) : hive_message_t :=
  mk_message sender recipient type 0 now 0 [].

(** [hive_message_set_data(message, data, length)], [data] pointing to the
    [length] bytes [obj]. *)
Definition hive_message_set_data (message : hive_message_t) (obj : bytes)
    (length : Z) : hive_message_t :=
  if length >? sizeof_data then message
  else mk_message (sender_id message) (recipient_id message) (m_type message)
                  (sequence_number message) (m_timestamp message) length obj.

Definition knowledge_packet_from_atom (atom : atom_t) : knowledge_packet_t :=
  mk_packet (strncpy 255 (a_name atom)) (a_type atom) (a_truth_value atom)
            (a_confidence atom) (a_importance atom) (a_timestamp atom).

Definition knowledge_packet_to_atom (space : atom_space_t)
    (packet : knowledge_packet_t) (now : Z) : atom_space_t * nat :=
  let '(space, i) :=
    atomspace_add_atom space (kp_atom_type packet) (kp_atom_name packet) now in
  (mk_space
     (alter (fun atom =>
               let atom := atomspace_update_truth_value
                             atom (kp_truth_value packet) (kp_confidence packet) now in
               let atom := set_importance atom (kp_importance packet) in
               set_timestamp atom (kp_timestamp packet))
            i (atoms space))
     (atom_count space) (next_id space),
   i).

Definition healing_request_create (problem_desc : string) (sev : f32)
    (node : Z) (now : Z) (problem_id_counter : Z) : healing_request_t * Z :=
  (mk_request problem_id_counter (strncpy 255 problem_desc) sev node now
              HEALING_NONE,
   u32_incr problem_id_counter).

Definition healing_response_create (pid node : Z) (action : healing_action_t)
    (conf : f32) : healing_response_t :=
  mk_response pid node action conf.

(** The result of a coordinator function: the coordinator it leaves and the
    messages it handed to the transport. *)
Definition outcome : Type := hive_coordinator_t * list hive_message_t.

Definition send_message_impl (coordinator : hive_coordinator_t)
    (message : hive_message_t) : outcome :=
  let seq := u32_incr (sequence_counter coordinator) in
  (set_sequence_counter coordinator seq, [set_sequence_number message seq]).

(** What the C library and the object representation contribute:
    [snprintf] with the format ["collective_health_%.2f"] into 128 bytes,
    the bytes of a structure as [memcpy] reads them, and the structure a
    cast of the message buffer reads back. *)
Record platform := mk_platform {
  snprintf_collective_health : f32 -> string;
  knowledge_packet_bytes : knowledge_packet_t -> bytes;
  healing_request_bytes : healing_request_t -> bytes;
  healing_response_bytes : healing_response_t -> bytes;
  knowledge_packet_of_bytes : bytes -> knowledge_packet_t;
  healing_request_of_bytes : bytes -> healing_request_t
}.

Section Hive.

Variable pf : platform.

Definition hive_broadcast_knowledge (coordinator : hive_coordinator_t)
    (atom : atom_t) (now : Z) : outcome :=
  let packet := knowledge_packet_from_atom atom in
  let message :=
    hive_message_create (node_id coordinator) 0 HIVE_MSG_KNOWLEDGE_SHARE now in
  let message :=
    hive_message_set_data message (knowledge_packet_bytes pf packet)
                          sizeof_knowledge_packet_t in
  send_message_impl coordinator message.

Definition request_healing_assistance_impl (coordinator : hive_coordinator_t)
    (request : healing_request_t) (now : Z) : outcome :=
  let message :=
    hive_message_create (node_id coordinator) 0 HIVE_MSG_HEALING_REQUEST now in
  let message :=
    hive_message_set_data message (healing_request_bytes pf request)
                          sizeof_healing_request_t in
  send_message_impl coordinator message.

(** [hive_coordinate_healing]; the function-local static
    [problem_id_counter] is passed in and returned. *)
Definition hive_coordinate_healing (coordinator : hive_coordinator_t)
    (problem_desc : string) (now : Z) (problem_id_counter : Z) : outcome * Z :=
  let '(request, problem_id_counter) :=
    healing_request_create problem_desc F32.lit_0_8 (node_id coordinator) now
                           problem_id_counter in
  let local_action :=
    healing_evaluate_problem (local_engine coordinator) problem_desc in
  let request :=
    mk_request (problem_id request) (problem_description request)
               (severity request) (requesting_node request)
               (request_time request) local_action in
  match local_action with
  | HEALING_NONE | HEALING_RETRY =>
      (request_healing_assistance_impl coordinator request now,
       problem_id_counter)
  | _ => ((coordinator, []), problem_id_counter)
  end.

Definition hive_update_collective_topology (coordinator : hive_coordinator_t)
    (now : Z) : hive_coordinator_t :=
  let engine := local_engine coordinator in
  match topology engine with
  | Some topo =>
      let collective_state :=
        snprintf_collective_health pf (overall_health topo) in
      match global_knowledge engine with
      | Some space =>
          let '(space, i) :=
            atomspace_add_atom space ATOM_CONCEPT collective_state now in
          let space :=
            mk_space
              (alter (fun atom => atomspace_update_truth_value
                                    atom (overall_health topo) F32.lit_0_9 now)
                     i (atoms space))
              (atom_count space) (next_id space) in
          set_local_engine coordinator (set_global_knowledge engine (Some space))
      | None => coordinator
      end
  | None => coordinator
  end.

Definition hive_calculate_emergence_factor (coordinator : hive_coordinator_t)
  : f32 :=
  let engine := local_engine coordinator in
  let network_health :=
    match topology engine with
    | Some topo => overall_health topo
    | None => F32.lit_0_5
    end in
  let knowledge_diversity :=
    match global_knowledge engine with
    | Some space => F32.div (F32.of_Z (atom_count space)) F32.lit_100
    | None => F32.lit_0_1
    end in
  let knowledge_diversity :=
    if F32.gtb knowledge_diversity F32.lit_1_0 then F32.lit_1_0
    else knowledge_diversity in
  let emergence :=
    F32.add (F32.add (F32.mul network_health F32.lit_0_4)
                     (F32.mul knowledge_diversity F32.lit_0_3))
            (F32.mul (collective_intelligence_score coordinator) F32.lit_0_3) in
  if F32.gtb emergence F32.lit_1_0 then F32.lit_1_0 else emergence.

Definition hive_adaptive_behavior_update (coordinator : hive_coordinator_t)
  : hive_coordinator_t :=
  let emergence_factor := hive_calculate_emergence_factor coordinator in
  let coordinator :=
    if F32.gtb emergence_factor F32.lit_0_8 then
      set_local_engine coordinator
        (set_autonomy_level (local_engine coordinator) F32.lit_0_9)
    else if F32.ltb emergence_factor F32.lit_0_3 then
      set_local_engine coordinator
        (set_autonomy_level (local_engine coordinator) F32.lit_0_3)
    else coordinator in
  set_collective_intelligence_score coordinator emergence_factor.

Definition share_knowledge_impl (coordinator : hive_coordinator_t)
    (atom : atom_t) (now : Z) : outcome :=
  if F32.gtb (a_importance atom) F32.lit_0_7 then
    hive_broadcast_knowledge coordinator atom now
  else (coordinator, []).

Definition process_shared_knowledge_impl (coordinator : hive_coordinator_t)
    (packet : knowledge_packet_t) (now : Z) : hive_coordinator_t :=
  let engine := local_engine coordinator in
  match global_knowledge engine with
  | Some space =>
      let '(space, _) := knowledge_packet_to_atom space packet now in
      set_local_engine coordinator (set_global_knowledge engine (Some space))
  | None => coordinator
  end.

Definition respond_to_healing_request_impl (coordinator : hive_coordinator_t)
    (request : healing_request_t) (now : Z) : outcome :=
  let recommended :=
    healing_evaluate_problem (local_engine coordinator)
                             (problem_description request) in
  let response :=
    healing_response_create (problem_id request) (node_id coordinator)
                            recommended F32.lit_0_8 in
  let message :=
    hive_message_create (node_id coordinator) (requesting_node request)
                        HIVE_MSG_HEALING_RESPONSE now in
  let message :=
    hive_message_set_data message (healing_response_bytes pf response)
                          sizeof_healing_response_t in
  send_message_impl coordinator message.

Definition update_collective_knowledge_impl (coordinator : hive_coordinator_t)
    (now : Z) : hive_coordinator_t :=
  hive_adaptive_behavior_update (hive_update_collective_topology coordinator now).

Definition calculate_swarm_health_impl (coordinator : hive_coordinator_t) : f32 :=
  let engine := local_engine coordinator in
  let local_health := si_health_score (self_image engine) in
  let network_health :=
    match topology engine with
    | Some topo => overall_health topo
    | None => F32.lit_0_5
    end in
  F32.add (F32.add (F32.mul local_health F32.lit_0_3)
                   (F32.mul network_health F32.lit_0_4))
          (F32.mul (collective_intelligence_score coordinator) F32.lit_0_3).

Definition receive_message_impl (coordinator : hive_coordinator_t)
    (message : hive_message_t) (now : Z) : outcome :=
  match m_type message with
  | HIVE_MSG_HEARTBEAT =>
      let engine := local_engine coordinator in
      match topology engine with
      | Some topo =>
          let topo := topology_add_node topo (sender_id message) "remote_node"%string now in
          let topo :=
            topology_update_node_health topo (sender_id message) F32.lit_1_0 now in
          (set_local_engine coordinator (set_topology engine (Some topo)), [])
      | None => (coordinator, [])
      end
  | HIVE_MSG_KNOWLEDGE_SHARE =>
      if data_length message =? sizeof_knowledge_packet_t then
        (process_shared_knowledge_impl
           coordinator (knowledge_packet_of_bytes pf (data message)) now, [])
      else (coordinator, [])
  | HIVE_MSG_HEALING_REQUEST =>
      if data_length message =? sizeof_healing_request_t then
        respond_to_healing_request_impl
          coordinator (healing_request_of_bytes pf (data message)) now
      else (coordinator, [])
  | HIVE_MSG_TOPOLOGY_UPDATE =>
      (hive_update_collective_topology coordinator now, [])
  | HIVE_MSG_EMERGENCY_SIGNAL => (coordinator, [])
  | HIVE_MSG_HEALING_RESPONSE => (coordinator, [])
  end.

Definition hive_coordinator_create (engine : autognosis_engine_t) (node : Z)
    (now : Z) : hive_coordinator_t :=
  mk_coordinator engine node 0 now now F32.lit_0_5.

(** The scan of [hive_coordinator_process_cycle]: the first atom, in list
    order, that is important and recent. *)
Fixpoint first_important_recent (l : list atom_t) (now : Z) : option atom_t :=
  match l with
  | [] => None
  | current :: rest =>
      if F32.gtb (a_importance current) F32.lit_0_8
         && (now - a_timestamp current <? 300)
      then Some current
      else first_important_recent rest now
  end.

(** The three blocks of [hive_coordinator_process_cycle], in order. *)
Definition cycle_heartbeat (coordinator : hive_coordinator_t) (now : Z)
  : outcome :=
  if now - last_heartbeat coordinator >=? 30 then
    let heartbeat :=
      hive_message_create (node_id coordinator) 0 HIVE_MSG_HEARTBEAT now in
    let '(coordinator, sent) := send_message_impl coordinator heartbeat in
    (set_last_heartbeat coordinator now, sent)
  else (coordinator, []).

Definition cycle_knowledge_sync (coordinator : hive_coordinator_t) (now : Z)
  : hive_coordinator_t :=
  if now - last_knowledge_sync coordinator >=? 60 then
    set_last_knowledge_sync (update_collective_knowledge_impl coordinator now) now
  else coordinator.

Definition cycle_share (coordinator : hive_coordinator_t) (now : Z) : outcome :=
  match global_knowledge (local_engine coordinator) with
  | Some space =>
      match first_important_recent (atoms space) now with
      | Some current => share_knowledge_impl coordinator current now
      | None => (coordinator, [])
      end
  | None => (coordinator, [])
  end.

Definition hive_coordinator_process_cycle (coordinator : hive_coordinator_t)
    (now : Z) : outcome :=
  let '(coordinator, sent1) := cycle_heartbeat coordinator now in
  let coordinator := cycle_knowledge_sync coordinator now in
  let '(coordinator, sent2) := cycle_share coordinator now in
  (coordinator, sent1 ++ sent2).

End Hive.

(* ===================================================================== *)
(** ** Derived operations and the specification's formulas *)
(* ===================================================================== *)

(** A run of [atomspace_add_atom] calls, each with its type, name and clock
    reading. *)
Definition upsert_all (space : atom_space_t)
    (calls : list (atom_type_t * string * Z)) : atom_space_t :=
  fold_left (fun sp '(type, name, now) => fst (atomspace_add_atom sp type name now))
            calls space.

Definition names (space : atom_space_t) : list string :=
  map a_name (atoms space).

(** [knowledge_packet_to_atom] on a fresh store, applied to the packet of
    [fact]: the atom the returned pointer designates. *)
Definition decode_encoded_into_empty (fact : atom_t) (now : Z) : option atom_t :=
  let '(space, i) :=
    knowledge_packet_to_atom atomspace_create (knowledge_packet_from_atom fact) now in
  atoms space !! i.

(** Consecutive calls of [send_message_impl] by one node. *)
Fixpoint send_all (coordinator : hive_coordinator_t) (ms : list hive_message_t)
  : outcome :=
  match ms with
  | [] => (coordinator, [])
  | m :: rest =>
      let '(coordinator, sent1) := send_message_impl coordinator m in
      let '(coordinator, sent2) := send_all coordinator rest in
      (coordinator, sent1 ++ sent2)
  end.

(** The specification's formula
    [0.4*networkHealth + 0.3*min(1, atomCount/100) + 0.3*previous]. *)
Definition emergence_formula (network_health : f32) (count : Z) (previous : f32)
  : f32 :=
  F32.add
    (F32.add (F32.mul F32.lit_0_4 network_health)
             (F32.mul F32.lit_0_3
                      (F32.min F32.lit_1_0 (F32.div (F32.of_Z count) F32.lit_100))))
    (F32.mul F32.lit_0_3 previous).

(** The specification's blend of [(t1, c1)] with [(t2, c2)]. *)
Definition blend_truth (t1 c1 t2 c2 : f32) : f32 :=
  F32.div (F32.add (F32.mul t1 c1) (F32.mul t2 c2)) (F32.add c1 c2).
Definition blend_confidence (c1 c2 : f32) : f32 :=
  F32.min F32.lit_1_0 (F32.div (F32.add c1 c2) F32.lit_2_0).

Definition is_knowledge_share (m : hive_message_t) : bool :=
  match m_type m with HIVE_MSG_KNOWLEDGE_SHARE => true | _ => false end.

(** The test of the scan of [hive_coordinator_process_cycle]. *)
Definition important_recent (now : Z) (a : atom_t) : bool :=
  F32.gtb (a_importance a) F32.lit_0_8 && (now - a_timestamp a <? 300).

(** The one receive that makes the recipient send: a healing request whose
    length is the size of the structure. *)
Definition answers_healing_request (m : hive_message_t) : bool :=
  match m_type m with
  | HIVE_MSG_HEALING_REQUEST => data_length m =? sizeof_healing_request_t
  | _ => false
  end.

(** The atoms of the coordinator's global store. *)
Definition store_atoms (c : hive_coordinator_t) : list atom_t :=
  match global_knowledge (local_engine c) with
  | Some space => atoms space
  | None => []
  end.

(** *** Concrete data for the examples *)

(** A platform whose structures all have the representation of zeroes of
    their size. *)
Definition example_platform : platform :=
  mk_platform
    (fun _ => "collective_health_1.00"%string)
    (fun _ => repeat Byte.x00 280)
    (fun _ => repeat Byte.x00 288)
    (fun _ => repeat Byte.x00 144)
    (fun _ => mk_packet "remote_fact"%string ATOM_CONCEPT F32.lit_0_9 F32.lit_0_9
                        F32.lit_1_0 0)
    (fun _ => mk_request 1 "timeout"%string F32.lit_0_8 2002 0 HEALING_NONE).

Definition example_fact (imp : f32) (stamp : Z) : atom_t :=
  mk_atom 1 ATOM_CONCEPT "fact"%string F32.lit_0_9 F32.lit_0_9 imp stamp.

Definition example_engine (store : list atom_t) (health : f32)
  : autognosis_engine_t :=
  mk_engine (mk_self_image F32.lit_1_0 F32.lit_0_5 0)
            (Some (mk_topology [] 0 health 0))
            (healing_rules (autognosis_create 0))
            (Some (mk_space store (Z.of_nat (length store))
                            (Z.of_nat (length store) + 1)))
            true 0 F32.zero.

(** The coordinator of node 1001, created at time [created] over a store
    holding [store]. *)
Definition example_coordinator (store : list atom_t) (created : Z)
  : hive_coordinator_t :=
  hive_coordinator_create (example_engine store F32.lit_1_0) 1001 created.

(** Envelopes from node 2002: a healing request of the structure's size, a
    knowledge share with an empty payload, a heartbeat. *)
Definition healing_request_envelope : hive_message_t :=
  mk_message 2002 0 HIVE_MSG_HEALING_REQUEST 5 1000 288 (repeat Byte.x00 288).
Definition empty_share_envelope : hive_message_t :=
  mk_message 2002 0 HIVE_MSG_KNOWLEDGE_SHARE 6 1000 0 [].
Definition heartbeat_envelope : hive_message_t :=
  mk_message 2002 0 HIVE_MSG_HEARTBEAT 7 1000 0 [].

(** A topology built through the public functions in which the only node
    reports the health 3.0. *)
Definition overheated_topology : network_topology_t :=
  topology_update_node_health
    (topology_add_node (topology_create 0) 7 "peer"%string 0) 7 (F32.of_Z 3) 0.

Definition overheated_coordinator : hive_coordinator_t :=
  hive_coordinator_create
    (set_topology (autognosis_create 0) (Some overheated_topology)) 1001 0.

(** A store of fifty facts. *)
Definition fifty_facts : atom_space_t :=
  upsert_all atomspace_create
    (map (fun n => (ATOM_CONCEPT, string_of_list_ascii (repeat "a"%char (S n)), 0))
         (seq 0 50)).

(** A coordinator with network health 0.6, fifty facts and the previous
    score 0.5. *)
Definition steady_coordinator : hive_coordinator_t :=
  hive_coordinator_create
    (mk_engine (mk_self_image F32.lit_1_0 F32.lit_0_5 0)
               (Some (mk_topology [] 0 (F32.of_decimal 6 10) 0))
               [] (Some fifty_facts) true 0 F32.zero)
    1001 0.

Definition payload_513 : bytes := repeat Byte.x00 513.

Definition name_of_256 : string := string_of_list_ascii (repeat "a"%char 256).
Definition name_of_255 : string := string_of_list_ascii (repeat "a"%char 255).

(* ===================================================================== *)
(** ** Further functions of autognosis.c *)
(* ===================================================================== *)

(** The loop of [topology_find_healthiest_node], carrying [healthiest]. *)
Fixpoint healthiest_from (l : list network_node_t) (healthiest : network_node_t)
  : network_node_t :=
  match l with
  | [] => healthiest
  | current :: rest =>
      healthiest_from rest
        (if F32.gtb (n_health_score current) (n_health_score healthiest)
         then current else healthiest)
  end.

Definition topology_find_healthiest_node (topo : network_topology_t)
  : option network_node_t :=
  match nodes topo with
  | [] => None
  | first :: rest =>
      let healthiest := healthiest_from rest first in
      if F32.gtb (n_health_score healthiest) F32.lit_0_1 then Some healthiest
      else None
  end.

Definition healing_action_eqb (a b : healing_action_t) : bool :=
  match a, b with
  | HEALING_NONE, HEALING_NONE | HEALING_RETRY, HEALING_RETRY
  | HEALING_REROUTE, HEALING_REROUTE
  | HEALING_RECONSTRUCT, HEALING_RECONSTRUCT
  | HEALING_MIGRATE, HEALING_MIGRATE => true
  | _, _ => false
  end.

(** [healing_execute_action]: every case of its switch is empty. *)
Definition healing_execute_action (engine : autognosis_engine_t)
    (action : healing_action_t) : autognosis_engine_t :=
  engine.

(** The learning loop of [diagnose_and_heal_impl]: the first rule whose
    condition occurs in the description and whose action is the one taken
    has its attempt counted. *)
Fixpoint count_attempt (l : list healing_rule_t) (problem_desc : string)
    (action : healing_action_t) : list healing_rule_t :=
  match l with
  | [] => []
  | rule :: rest =>
      if strstr problem_desc (r_condition rule)
         && healing_action_eqb (r_action rule) action
      then mk_rule (r_condition rule) (r_action rule) (r_confidence rule)
                   (r_success_count rule) (u32_incr (r_attempt_count rule))
           :: rest
      else rule :: count_attempt rest problem_desc action
  end.

Definition diagnose_and_heal_impl (engine : autognosis_engine_t)
    (problem : string) : autognosis_engine_t * healing_action_t :=
  let action := healing_evaluate_problem engine problem in
  let engine := healing_execute_action engine action in
  (mk_engine (self_image engine) (topology engine)
             (count_attempt (healing_rules engine) problem action)
             (global_knowledge engine) (running engine)
             (last_cognitive_cycle engine) (cognitive_load engine),
   action).

(** *** Runs of calls and the predicates of the properties *)

(** A call on a topology: [topology_add_node] or
    [topology_update_node_health]. *)
Inductive topology_call :=
| AddNode (id : Z) (address : string) (now : Z)
| UpdateNodeHealth (id : Z) (health : f32) (now : Z).

Definition topology_step (topo : network_topology_t) (call : topology_call)
  : network_topology_t :=
  match call with
  | AddNode id address now => topology_add_node topo id address now
  | UpdateNodeHealth id health now =>
      topology_update_node_health topo id health now
  end.

Definition topology_run (topo : network_topology_t)
    (calls : list topology_call) : network_topology_t :=
  fold_left topology_step calls topo.

Definition node_ids (topo : network_topology_t) : list Z :=
  map n_node_id (nodes topo).

(** [x] is not above one: [x > 1.0f] is false. *)
Definition at_most_one (x : f32) : Prop := F32.gtb x F32.lit_1_0 = false.

(** [x] is not below zero: [x < 0] is false. *)
Definition not_negative (x : f32) : Prop := F32.ltb x F32.zero = false.

(** A rule attempted at least once with no success on record. *)
Definition never_succeeded (r : healing_rule_t) : Prop :=
  0 < r_attempt_count r /\ r_success_count r = 0.

Definition is_heartbeat (m : hive_message_t) : bool :=
  match m_type m with HIVE_MSG_HEARTBEAT => true | _ => false end.

(** The description contains the condition: [strstr] finds it. *)
Definition mentions (problem_desc condition : string) : bool :=
  strstr problem_desc condition.

(** A call on a knowledge store: [atomspace_add_atom] or
    [knowledge_packet_to_atom]. *)
Inductive store_call :=
| AddAtom (type : atom_type_t) (name : string) (now : Z)
| DecodePacket (packet : knowledge_packet_t) (now : Z).

Definition store_step (space : atom_space_t) (call : store_call)
  : atom_space_t :=
  match call with
  | AddAtom type name now => fst (atomspace_add_atom space type name now)
  | DecodePacket packet now => fst (knowledge_packet_to_atom space packet now)
  end.

Definition store_run (space : atom_space_t) (calls : list store_call)
  : atom_space_t :=
  fold_left store_step calls space.

(** Invariants of a store: the name fits the 256-byte buffer, the counters
    follow the number of atoms, the confidence is not above one, the
    identifiers were handed out in order. *)
Definition name_fits (a : atom_t) : Prop :=
  (String.length (a_name a) <= 255)%nat.

Definition counted (space : atom_space_t) : Prop :=
  atom_count space = Z.of_nat (length (atoms space)) mod 2 ^ 32 /\
  next_id space = (Z.of_nat (length (atoms space)) + 1) mod 2 ^ 32.

Definition confidence_fits (a : atom_t) : Prop :=
  at_most_one (a_confidence a).

Definition ids_fresh (space : atom_space_t) : Prop :=
  next_id space = Z.of_nat (length (atoms space)) + 1 /\
  Forall (fun a => 1 <= a_id a < next_id space) (atoms space) /\
  NoDup (map a_id (atoms space)).

(** The test of the health loop: [health_score > 0.1f]. *)
Definition is_healthy (n : network_node_t) : bool :=
  F32.gtb (n_health_score n) F32.lit_0_1.

Definition topology_counted (topo : network_topology_t) : Prop :=
  NoDup (node_ids topo) /\
  node_count topo = Z.of_nat (length (nodes topo)) mod 2 ^ 32.

(** The fact [hive_update_collective_topology] creates when the formatted
    name is new: the defaults merged with the overall health at confidence
    [0.9f]. *)
Definition collective_fact (pf : platform) (topo : network_topology_t)
    (space : atom_space_t) (now : Z) : atom_t :=
  atomspace_update_truth_value
    (mk_atom (next_id space) ATOM_CONCEPT
             (strncpy 255 (snprintf_collective_health pf (overall_health topo)))
             F32.lit_0_5 F32.lit_0_5 F32.lit_1_0 now)
    (overall_health topo) F32.lit_0_9 now.

(** The payload length the coordinator gives a message of each type. *)
Definition payload_length (type : hive_message_type_t) : Z :=
  match type with
  | HIVE_MSG_KNOWLEDGE_SHARE => sizeof_knowledge_packet_t
  | HIVE_MSG_HEALING_REQUEST => sizeof_healing_request_t
  | HIVE_MSG_HEALING_RESPONSE => sizeof_healing_response_t
  | _ => 0
  end.

(** *** Concrete data for the further examples *)

(** A platform whose casts read back the packet of [fact] and the request
    [request], whatever the bytes. *)
Definition echo_platform (fact : atom_t) (request : healing_request_t)
  : platform :=
  mk_platform
    (fun _ => "collective_health_1.00"%string)
    (fun _ => repeat Byte.x00 280)
    (fun _ => repeat Byte.x00 288)
    (fun _ => repeat Byte.x00 144)
    (fun _ => knowledge_packet_from_atom fact)
    (fun _ => request).

Definition three_nodes : network_topology_t :=
  topology_run (topology_create 0)
    [AddNode 1 "192.168.1.10"%string 0; AddNode 2 "192.168.1.20"%string 0;
     AddNode 3 "192.168.1.30"%string 0;
     UpdateNodeHealth 1 F32.lit_0_9 1; UpdateNodeHealth 2 F32.lit_0_7 1;
     UpdateNodeHealth 3 F32.lit_0_3 1].

Definition threat_fact : atom_t :=
  mk_atom 4 ATOM_CONCEPT "security_threat_detected"%string F32.lit_0_9
          F32.lit_0_9 F32.lit_1_0 1000.

Definition timeout_request : healing_request_t :=
  mk_request 1 "timeout"%string F32.lit_0_8 1001 1010 HEALING_RETRY.

(** Node 1001 and node 2002, both created at time 1000 with the default
    rules, an empty store and an empty topology. *)
Definition node_1001 : hive_coordinator_t :=
  hive_coordinator_create (autognosis_create 1000) 1001 1000.
Definition node_2002 : hive_coordinator_t :=
  hive_coordinator_create (autognosis_create 1000) 2002 1000.

Definition threat_packet : knowledge_packet_t :=
  mk_packet "security_threat_detected"%string ATOM_CONCEPT F32.lit_0_9
            F32.lit_0_9 F32.lit_1_0 1000.

(* ===================================================================== *)
(** ** Numbers and strings: auxiliary facts *)
(* ===================================================================== *)

(** The literals are the binary32 numbers nearest to their decimals. *)
Lemma literals_are_nearest :
  F32.lit_0_1 = F32.of_decimal 1 10 /\ F32.lit_0_3 = F32.of_decimal 3 10 /\
  F32.lit_0_4 = F32.of_decimal 4 10 /\ F32.lit_0_5 = F32.of_decimal 5 10 /\
  F32.lit_0_7 = F32.of_decimal 7 10 /\ F32.lit_0_8 = F32.of_decimal 8 10 /\
  F32.lit_0_9 = F32.of_decimal 9 10 /\ F32.lit_1_0 = F32.of_Z 1 /\
  F32.lit_2_0 = F32.of_Z 2 /\ F32.lit_100 = F32.of_Z 100.
Proof. vm_compute. repeat split. Qed.

Lemma f32_mul_comm (x y : f32) : F32.mul x y = F32.mul y x.
Proof.
  unfold F32.mul.
  destruct x as [sx|sx| |sx mx ex], y as [sy|sy| |sy my ey]; simpl;
    try reflexivity; try (now rewrite xorb_comm).
  now rewrite xorb_comm, Pos.mul_comm, Z.add_comm.
Qed.

(** A number that compares equal to zero is not greater than zero. *)
Lemma f32_eq_zero_not_gt (x : f32) :
  F32.eqb x F32.zero = true -> F32.gtb x F32.zero = false.
Proof.
  unfold F32.eqb, F32.gtb, F32.zero, SFeqb, SFltb.
  destruct x as [s|s| |s m e]; simpl; try reflexivity; destruct s; discriminate.
Qed.

(** Comparison is antisymmetric, and reflexive away from NaN. *)
Lemma f32_compare_antisym (x y : f32) :
  SFcompare y x = option_map CompOpp (SFcompare x y).
Proof.
  destruct x as [sx|sx| |sx mx ex], y as [sy|sy| |sy my ey]; simpl;
    try reflexivity; try (destruct sx; reflexivity);
    try (destruct sy; reflexivity);
    try (destruct sx, sy; reflexivity).
  change (Pos.compare_cont Eq ?a ?b) with (Pos.compare a b).
  rewrite (Z.compare_antisym ex ey), (Pos.compare_antisym mx my).
  destruct sx, sy; simpl; try reflexivity;
    destruct (Z.compare ex ey); reflexivity.
Qed.

Lemma f32_compare_refl (x : f32) :
  x <> S754_nan -> SFcompare x x = Some Eq.
Proof.
  destruct x as [s|s| |s m e]; simpl; intros H;
    try reflexivity; try (destruct s; reflexivity); try congruence.
  change (Pos.compare_cont Eq ?a ?b) with (Pos.compare a b).
  rewrite Z.compare_refl, Pos.compare_refl. destruct s; reflexivity.
Qed.

(** [F32.min] is one of its arguments, and on comparable numbers it is
    below both. *)
Lemma f32_min_lower_bound (a b : f32) :
  SFcompare a b <> None ->
  (F32.min a b = a \/ F32.min a b = b) /\
  SFleb (F32.min a b) a = true /\ SFleb (F32.min a b) b = true.
Proof.
  intros Hc.
  assert (Ha : a <> S754_nan) by (intros ->; apply Hc; reflexivity).
  assert (Hb : b <> S754_nan)
    by (intros ->; apply Hc; destruct a as [?|?| |? ? ?]; reflexivity).
  unfold F32.min, F32.ltb, SFltb, SFleb.
  destruct (SFcompare a b) as [[ | | ]|] eqn:E; try congruence.
  - rewrite (f32_compare_refl b Hb), f32_compare_antisym, E. simpl. tauto.
  - rewrite (f32_compare_refl a Ha), E. tauto.
  - rewrite (f32_compare_refl b Hb), f32_compare_antisym, E. simpl. tauto.
Qed.

(** Above [0.8f] is above [0.7f]: both literals have the exponent -24. *)
Lemma f32_gt_0_8_gt_0_7 (x : f32) :
  F32.gtb x F32.lit_0_8 = true -> F32.gtb x F32.lit_0_7 = true.
Proof.
  unfold F32.gtb, F32.lit_0_8, F32.lit_0_7, SFltb, SFcompare.
  destruct x as [s|s| |s m e]; try (destruct s); try discriminate;
    try reflexivity.
  destruct (Z.compare (-24) e); try discriminate; try reflexivity.
  change (Pos.compare_cont Eq ?a ?b) with (Pos.compare a b).
  destruct (Pos.compare_spec 13421773 m); try discriminate.
  intros _.
  destruct (Pos.compare_spec 11744051 m); try reflexivity; lia.
Qed.

Lemma strncpy_length (n : nat) (s : string) :
  (String.length (strncpy n s) <= n)%nat.
Proof.
  unfold strncpy. revert s.
  induction n as [|n IH]; intros [|c s]; simpl; try lia.
  specialize (IH s). lia.
Qed.

Lemma strncpy_short (n : nat) (s : string) :
  (String.length s <= n)%nat -> strncpy n s = s.
Proof.
  unfold strncpy. revert s.
  induction n as [|n IH]; intros [|c s]; simpl; intros H;
    try reflexivity; try lia.
  f_equal. apply IH. lia.
Qed.

Lemma strncpy_idempotent (n : nat) (s : string) :
  strncpy n (strncpy n s) = strncpy n s.
Proof. apply strncpy_short, strncpy_length. Qed.

Lemma streq_true (a b : string) : streq a b = true <-> a = b.
Proof. apply String.eqb_eq. Qed.

Lemma streq_false (a b : string) : streq a b = false <-> a <> b.
Proof. apply String.eqb_neq. Qed.

Lemma u32_incr_below (n : Z) :
  0 <= n < UINT32_MAX -> u32_incr n = n + 1.
Proof.
  unfold u32_incr, UINT32_MAX. intros H.
  apply Z.mod_small. lia.
Qed.

Lemma u32_incr_wraps : u32_incr UINT32_MAX = 0.
Proof. reflexivity. Qed.

(* ===================================================================== *)
(** ** The knowledge store *)
(* ===================================================================== *)

Lemma find_from_Some (l : list atom_t) (name : string) (i : nat) :
  find_from l name = Some i ->
  exists a, l !! i = Some a /\ a_name a = name.
Proof.
  revert i. induction l as [|a l IH]; simpl; intros i H; [discriminate|].
  destruct (streq (a_name a) name) eqn:E.
  - injection H as <-. exists a. split; [reflexivity|now apply streq_true].
  - destruct (find_from l name) as [j|]; [|discriminate].
    injection H as <-. destruct (IH j eq_refl) as (b & Hb & Hn).
    now exists b.
Qed.

Lemma find_from_None (l : list atom_t) (name : string) :
  find_from l name = None -> ~ In name (map a_name l).
Proof.
  induction l as [|a l IH]; simpl; intros H; [tauto|].
  destruct (streq (a_name a) name) eqn:E; [discriminate|].
  destruct (find_from l name); [discriminate|].
  apply streq_false in E. intros [F|F]; [tauto|now apply IH].
Qed.

Lemma names_alter (f : atom_t -> atom_t) (i : nat) (l : list atom_t) :
  (forall a, a_name (f a) = a_name a) ->
  map a_name (alter f i l) = map a_name l.
Proof.
  intros Hf. revert i. induction l as [|a l IH]; intros [|i]; simpl;
    try reflexivity.
  - now rewrite Hf.
  - f_equal. apply IH.
Qed.

Lemma add_atom_names (space : atom_space_t) (type : atom_type_t)
    (name : string) (now : Z) :
  names (fst (atomspace_add_atom space type name now)) =
  match atomspace_find_atom space name with
  | Some _ => names space
  | None => strncpy 255 name :: names space
  end.
Proof.
  unfold atomspace_add_atom, names.
  destruct (atomspace_find_atom space name); simpl; [|reflexivity].
  now apply names_alter.
Qed.

Lemma add_atom_keeps_unique (space : atom_space_t) (type : atom_type_t)
    (name : string) (now : Z) :
  (String.length name <= 255)%nat ->
  NoDup (names space) ->
  NoDup (names (fst (atomspace_add_atom space type name now))).
Proof.
  intros Hlen Hnd. rewrite add_atom_names.
  destruct (atomspace_find_atom space name) eqn:E; [exact Hnd|].
  rewrite strncpy_short by exact Hlen.
  apply NoDup_cons. split; [|exact Hnd].
  rewrite list_elem_of_In. now apply find_from_None.
Qed.

(** X1.  Uniqueness for names that fit the 256-byte buffer: after any run
    of [atomspace_add_atom] calls from the empty store with names of at
    most 255 characters, no two atoms have the same name. *)
Theorem upsert_all_unique_short_names
    (calls : list (atom_type_t * string * Z)) :
  Forall (fun '(_, name, _) => (String.length name <= 255)%nat) calls ->
  NoDup (names (upsert_all atomspace_create calls)).
Proof.
  unfold upsert_all.
  assert (G : forall space, NoDup (names space) ->
            Forall (fun '(_, name, _) => (String.length name <= 255)%nat) calls ->
            NoDup (names (fold_left
                     (fun sp '(type, name, now) =>
                        fst (atomspace_add_atom sp type name now)) calls space))).
  { induction calls as [|[[type name] now] calls IH]; intros space Hnd Hall;
      simpl; [exact Hnd|].
    inversion Hall as [|? ? Hlen Hrest]; subst.
    apply IH; [|exact Hrest].
    now apply add_atom_keeps_unique. }
  intros Hall. apply G; [|exact Hall].
  unfold names. simpl. apply NoDup_nil. exact I.
Qed.

(** X2.  A repeated name adds [0.1f] to the importance of the atom found
    and creates nothing. *)
Theorem upsert_existing_increments_importance (space : atom_space_t)
    (type : atom_type_t) (name : string) (now : Z) (i : nat) (a : atom_t) :
  atomspace_find_atom space name = Some i ->
  atoms space !! i = Some a ->
  let '(space', j) := atomspace_add_atom space type name now in
  j = i /\
  atoms space' !! i =
    Some (set_importance a (F32.add (a_importance a) F32.lit_0_1)) /\
  length (atoms space') = length (atoms space) /\
  atom_count space' = atom_count space.
Proof.
  intros Hfind Hi. unfold atomspace_add_atom. rewrite Hfind. simpl.
  split; [reflexivity|]. split.
  - rewrite list_lookup_alter_eq, Hi. reflexivity.
  - split; [apply length_alter|reflexivity].
Qed.

(** C8 (defect).  [atomspace_add_atom] stores the first 255 characters of
    a name but looks the whole name up: adding the same 256-character name
    twice to the empty store leaves two atoms with the same stored name,
    each with the initial importance [1.0f]; nothing was incremented. *)
Theorem upsert_long_name_twice_duplicates :
  let space :=
    upsert_all atomspace_create
               [(ATOM_CONCEPT, name_of_256, 0); (ATOM_CONCEPT, name_of_256, 0)] in
  names space = [name_of_255; name_of_255] /\
  atom_count space = 2 /\
  map a_importance (atoms space) = [F32.lit_1_0; F32.lit_1_0] /\
  ~ NoDup (names space).
Proof.
  assert (E : names (upsert_all atomspace_create
                [(ATOM_CONCEPT, name_of_256, 0); (ATOM_CONCEPT, name_of_256, 0)])
              = [name_of_255; name_of_255]) by (vm_compute; reflexivity).
  cbv zeta. rewrite E.
  split; [reflexivity|]. split; [vm_compute; reflexivity|].
  split; [vm_compute; reflexivity|].
  intros H. apply NoDup_cons in H as [H _]. apply H. left.
Qed.

(** C1.  [atomspace_update_truth_value] is the confidence-weighted blend:
    when the sum of the two confidences is greater than zero the new truth
    value is [(t1*c1 + t2*c2) / (c1 + c2)] and the new confidence is
    [min(1, (c1 + c2) / 2)]; when the sum equals zero both are left as
    they were. *)
Theorem merge_is_confidence_weighted_blend (atom : atom_t)
    (truth confidence : f32) (now : Z) :
  let merged := atomspace_update_truth_value atom truth confidence now in
  let total := F32.add (a_confidence atom) confidence in
  (F32.gtb total F32.zero = true ->
   a_truth_value merged =
     blend_truth (a_truth_value atom) (a_confidence atom) truth confidence /\
   a_confidence merged = blend_confidence (a_confidence atom) confidence) /\
  (F32.eqb total F32.zero = true ->
   a_truth_value merged = a_truth_value atom /\
   a_confidence merged = a_confidence atom).
Proof.
  cbv zeta. unfold atomspace_update_truth_value. split; intros H.
  - rewrite H. simpl. split; reflexivity.
  - rewrite (f32_eq_zero_not_gt _ H). simpl. split; reflexivity.
Qed.

(** After a merge that took place the confidence is not above one. *)
Lemma merge_confidence_at_most_one (atom : atom_t) (truth confidence : f32)
    (now : Z) :
  F32.gtb (F32.add (a_confidence atom) confidence) F32.zero = true ->
  F32.gtb (a_confidence (atomspace_update_truth_value atom truth confidence now))
          F32.lit_1_0 = false.
Proof.
  intros H. unfold atomspace_update_truth_value. rewrite H. simpl.
  destruct (F32.gtb (F32.div (F32.add (a_confidence atom) confidence) F32.lit_2_0)
                    F32.lit_1_0) eqn:E; [reflexivity|exact E].
Qed.

Lemma merge_is_confidence_weighted_blend_witness :
  (a_truth_value
     (atomspace_update_truth_value (example_fact F32.lit_1_0 0)
                                   F32.lit_0_5 F32.lit_0_5 7) =
   blend_truth F32.lit_0_9 F32.lit_0_9 F32.lit_0_5 F32.lit_0_5 /\
   a_confidence
     (atomspace_update_truth_value (example_fact F32.lit_1_0 0)
                                   F32.lit_0_5 F32.lit_0_5 7) =
   blend_confidence F32.lit_0_9 F32.lit_0_5) /\
  (a_truth_value
     (atomspace_update_truth_value
        (mk_atom 1 ATOM_NODE "n"%string F32.lit_0_9 F32.zero F32.lit_1_0 0)
        F32.lit_0_5 F32.zero 7) = F32.lit_0_9 /\
   a_confidence
     (atomspace_update_truth_value
        (mk_atom 1 ATOM_NODE "n"%string F32.lit_0_9 F32.zero F32.lit_1_0 0)
        F32.lit_0_5 F32.zero 7) = F32.zero).
Proof.
  split.
  - apply (merge_is_confidence_weighted_blend
             (example_fact F32.lit_1_0 0) F32.lit_0_5 F32.lit_0_5 7).
    reflexivity.
  - apply (merge_is_confidence_weighted_blend
             (mk_atom 1 ATOM_NODE "n"%string F32.lit_0_9 F32.zero F32.lit_1_0 0)
             F32.lit_0_5 F32.zero 7).
    reflexivity.
Defined.

(** The example of the specification: (0.5, 0.5) merged with (0.9, 0.9)
    gives the truth value 0.7571... and the confidence 0.7. *)
Example merge_example :
  let merged :=
    atomspace_update_truth_value
      (mk_atom 1 ATOM_CONCEPT "x"%string F32.lit_0_5 F32.lit_0_5 F32.lit_1_0 0)
      F32.lit_0_9 F32.lit_0_9 0 in
  F32.within (a_truth_value merged) (106 # 140) (1 # 1000000) /\
  a_confidence merged = F32.lit_0_7.
Proof. split; vm_compute; reflexivity. Qed.

(** C4, as stated, fails: a fact with truth value 0.9 and confidence 0.9,
    encoded and decoded into the empty store, comes back with the truth
    value 0.7571... and the confidence 0.7. *)
Lemma roundtrip_changes_truth_and_confidence :
  exists decoded,
    decode_encoded_into_empty (example_fact F32.lit_1_0 100) 200 = Some decoded /\
    a_truth_value decoded <> a_truth_value (example_fact F32.lit_1_0 100) /\
    a_confidence decoded <> a_confidence (example_fact F32.lit_1_0 100).
Proof.
  eexists. split; [vm_compute; reflexivity|].
  split; vm_compute; discriminate.
Qed.

(** C4, amended.  Decoding the packet of a fact into the empty store
    creates one atom with the fact's type, importance and timestamp and the
    first 255 characters of its name; its truth value and confidence are
    the defaults (0.5, 0.5) merged with the fact's, as
    [atomspace_update_truth_value] merges them. *)
Theorem roundtrip_into_empty_store (fact : atom_t) (now : Z) :
  let merged :=
    atomspace_update_truth_value
      (mk_atom 1 (a_type fact) (strncpy 255 (a_name fact))
               F32.lit_0_5 F32.lit_0_5 F32.lit_1_0 now)
      (a_truth_value fact) (a_confidence fact) now in
  let total := F32.add F32.lit_0_5 (a_confidence fact) in
  decode_encoded_into_empty fact now =
    Some (mk_atom 1 (a_type fact) (strncpy 255 (a_name fact))
                  (a_truth_value merged) (a_confidence merged)
                  (a_importance fact) (a_timestamp fact)) /\
  a_truth_value merged =
    (if F32.gtb total F32.zero
     then blend_truth F32.lit_0_5 F32.lit_0_5
                      (a_truth_value fact) (a_confidence fact)
     else F32.lit_0_5) /\
  a_confidence merged =
    (if F32.gtb total F32.zero
     then blend_confidence F32.lit_0_5 (a_confidence fact)
     else F32.lit_0_5).
Proof.
  cbv zeta. split.
  - unfold decode_encoded_into_empty, knowledge_packet_to_atom,
      knowledge_packet_from_atom, atomspace_add_atom, atomspace_find_atom,
      atomspace_create.
    simpl. rewrite strncpy_idempotent.
    unfold atomspace_update_truth_value. simpl.
    destruct (F32.gtb (F32.add F32.lit_0_5 (a_confidence fact)) F32.zero);
      reflexivity.
  - unfold atomspace_update_truth_value. simpl.
    destruct (F32.gtb (F32.add F32.lit_0_5 (a_confidence fact)) F32.zero);
      split; reflexivity.
Qed.

(* ===================================================================== *)
(** ** Messages and sequence numbers *)
(* ===================================================================== *)

(** C2, as stated, fails: a 513-byte payload is not refused with an error.
    [hive_message_set_data] returns without storing it and reports nothing,
    and the message, its payload empty, is then handed to the transport
    with a fresh sequence number. *)
Lemma oversized_payload_dropped_and_message_sent :
  let message := hive_message_create 1001 0 HIVE_MSG_KNOWLEDGE_SHARE 1000 in
  let message' := hive_message_set_data message payload_513 513 in
  data_length message' = 0 /\ data message' = [] /\
  snd (send_message_impl (example_coordinator [] 1000) message') =
    [mk_message 1001 0 HIVE_MSG_KNOWLEDGE_SHARE 1 1000 0 []].
Proof. vm_compute. repeat split. Qed.

(** C2, amended.  A payload of more than 512 bytes is neither stored nor
    truncated: [hive_message_set_data] leaves the message as it was, and no
    error is reported; [send_message_impl] makes no check of its own and
    hands the message to the transport with the next sequence number. *)
Theorem oversized_payload_is_ignored (coordinator : hive_coordinator_t)
    (message : hive_message_t) (obj : bytes) (length : Z) :
  length > 512 ->
  hive_message_set_data message obj length = message /\
  send_message_impl coordinator (hive_message_set_data message obj length) =
    (set_sequence_counter coordinator (u32_incr (sequence_counter coordinator)),
     [set_sequence_number message (u32_incr (sequence_counter coordinator))]).
Proof.
  intros H. unfold hive_message_set_data, sizeof_data.
  destruct (Z.gtb_spec length 512); [|lia].
  split; reflexivity.
Qed.

Lemma oversized_payload_is_ignored_witness :
  hive_message_set_data
    (hive_message_create 1001 0 HIVE_MSG_KNOWLEDGE_SHARE 1000) payload_513 513 =
  hive_message_create 1001 0 HIVE_MSG_KNOWLEDGE_SHARE 1000 /\
  send_message_impl
    (example_coordinator [] 1000)
    (hive_message_set_data
       (hive_message_create 1001 0 HIVE_MSG_KNOWLEDGE_SHARE 1000) payload_513 513) =
  (set_sequence_counter (example_coordinator [] 1000)
                        (u32_incr (sequence_counter (example_coordinator [] 1000))),
   [set_sequence_number
      (hive_message_create 1001 0 HIVE_MSG_KNOWLEDGE_SHARE 1000)
      (u32_incr (sequence_counter (example_coordinator [] 1000)))]).
Proof.
  apply (oversized_payload_is_ignored
           (example_coordinator [] 1000)
           (hive_message_create 1001 0 HIVE_MSG_KNOWLEDGE_SHARE 1000)
           payload_513 513).
  lia.
Defined.

(** A payload of at most 512 bytes is stored with its length. *)
Lemma set_data_fits (message : hive_message_t) (obj : bytes) (length : Z) :
  length <= 512 ->
  hive_message_set_data message obj length =
  mk_message (sender_id message) (recipient_id message) (m_type message)
             (sequence_number message) (m_timestamp message) length obj.
Proof.
  intros H. unfold hive_message_set_data, sizeof_data.
  destruct (Z.gtb_spec length 512); [lia|reflexivity].
Qed.

(** Consecutive sends below the wrap-around: every sequence number
    assigned is above the counter the run started from, the numbers
    increase strictly, and the counter ends at the last one. *)
Lemma send_all_increasing (ms : list hive_message_t) :
  forall coordinator : hive_coordinator_t,
    0 <= sequence_counter coordinator ->
    sequence_counter coordinator + Z.of_nat (length ms) <= UINT32_MAX ->
    Forall (fun m => sequence_counter coordinator < sequence_number m)
           (snd (send_all coordinator ms)) /\
    StronglySorted Z.lt (map sequence_number (snd (send_all coordinator ms))) /\
    sequence_counter (fst (send_all coordinator ms)) =
      sequence_counter coordinator + Z.of_nat (length ms).
Proof.
  induction ms as [|m ms IH]; intros c Hlo Hhi.
  - simpl. repeat split; [constructor|constructor|lia].
  - simpl in Hhi. simpl.
    destruct (send_all (set_sequence_counter c (u32_incr (sequence_counter c))) ms)
      as [c' sent] eqn:E.
    assert (Hs : u32_incr (sequence_counter c) = sequence_counter c + 1)
      by (apply u32_incr_below; lia).
    destruct (IH (set_sequence_counter c (u32_incr (sequence_counter c))))
      as (Hall & Hsorted & Hlast); simpl; try lia.
    rewrite E in Hall, Hsorted, Hlast. simpl in Hall, Hsorted, Hlast.
    rewrite Hs in *. simpl. repeat split.
    + constructor; [simpl; lia|].
      eapply Forall_impl; [exact Hall|]. simpl. intros; lia.
    + constructor; [exact Hsorted|].
      apply Forall_map. eapply Forall_impl; [exact Hall|]. simpl. intros; lia.
    + lia.
Qed.

(* ===================================================================== *)
(** ** The emergence factor *)
(* ===================================================================== *)

(** C7, as stated, fails where the formula exceeds one: with the network
    health 3.0, no facts and the initial score 0.5 the formula gives 1.35
    and [hive_calculate_emergence_factor] returns 1. *)
Lemma emergence_factor_is_clamped :
  topology (local_engine overheated_coordinator) = Some overheated_topology /\
  overall_health overheated_topology = F32.of_Z 3 /\
  F32.within (emergence_formula (F32.of_Z 3) 0 F32.lit_0_5) (135 # 100) (1 # 1000000) /\
  hive_calculate_emergence_factor overheated_coordinator = F32.lit_1_0 /\
  hive_calculate_emergence_factor overheated_coordinator <>
    emergence_formula (F32.of_Z 3) 0 F32.lit_0_5.
Proof.
  split; [reflexivity|]. split; [vm_compute; reflexivity|].
  split; [vm_compute; reflexivity|]. split; [vm_compute; reflexivity|].
  vm_compute. discriminate.
Qed.

(** C7, amended.  With a topology and a knowledge store in place,
    [hive_calculate_emergence_factor] is the formula
    [0.4*networkHealth + 0.3*min(1, atomCount/100) + 0.3*previous] clamped
    to at most 1; for the network health 0.6, 50 atoms and the previous
    score 0.5 it is within 1e-6 of 0.54. *)
Theorem emergence_factor_is_clamped_formula (coordinator : hive_coordinator_t)
    (topo : network_topology_t) (space : atom_space_t) :
  topology (local_engine coordinator) = Some topo ->
  global_knowledge (local_engine coordinator) = Some space ->
  hive_calculate_emergence_factor coordinator =
    F32.min F32.lit_1_0
            (emergence_formula (overall_health topo) (atom_count space)
                               (collective_intelligence_score coordinator)) /\
  (overall_health topo = F32.of_decimal 6 10 ->
   atom_count space = 50 ->
   collective_intelligence_score coordinator = F32.lit_0_5 ->
   F32.within (hive_calculate_emergence_factor coordinator)
              (54 # 100) (1 # 1000000)).
Proof.
  intros Ht Hk.
  assert (E : hive_calculate_emergence_factor coordinator =
              F32.min F32.lit_1_0
                (emergence_formula (overall_health topo) (atom_count space)
                   (collective_intelligence_score coordinator))).
  { unfold hive_calculate_emergence_factor, emergence_formula.
    rewrite Ht, Hk.
    rewrite (f32_mul_comm F32.lit_0_4), !(f32_mul_comm F32.lit_0_3).
    reflexivity. }
  split; [exact E|].
  intros Hh Hc Hs. rewrite E, Hh, Hc, Hs. vm_compute. reflexivity.
Qed.

Lemma emergence_factor_is_clamped_formula_witness :
  hive_calculate_emergence_factor steady_coordinator =
    F32.min F32.lit_1_0
            (emergence_formula (F32.of_decimal 6 10) (atom_count fifty_facts)
                               F32.lit_0_5) /\
  F32.within (hive_calculate_emergence_factor steady_coordinator)
             (54 # 100) (1 # 1000000).
Proof.
  destruct (emergence_factor_is_clamped_formula
              steady_coordinator (mk_topology [] 0 (F32.of_decimal 6 10) 0)
              fifty_facts eq_refl eq_refl) as [H1 H2].
  split; [exact H1|].
  apply H2; vm_compute; reflexivity.
Defined.

(* ===================================================================== *)
(** ** The coordinator *)
(* ===================================================================== *)

Lemma first_important_recent_Some (l : list atom_t) (now : Z) (a : atom_t) :
  first_important_recent l now = Some a ->
  exists l1 l2,
    l = l1 ++ a :: l2 /\
    Forall (fun b => important_recent now b = false) l1 /\
    important_recent now a = true.
Proof.
  induction l as [|b l IH]; simpl; [discriminate|].
  fold (important_recent now b).
  destruct (important_recent now b) eqn:E.
  - intros [= <-]. exists [], l. repeat split; [constructor|exact E].
  - intros H. destruct (IH H) as (l1 & l2 & -> & Hall & Ha).
    exists (b :: l1), l2. repeat split; [constructor; assumption|exact Ha].
Qed.

Lemma first_important_recent_None (l : list atom_t) (now : Z) :
  first_important_recent l now = None ->
  Forall (fun b => important_recent now b = false) l.
Proof.
  induction l as [|b l IH]; simpl; [constructor|].
  fold (important_recent now b).
  destruct (important_recent now b) eqn:E; [discriminate|].
  intros H. constructor; [exact E|exact (IH H)].
Qed.

Lemma important_recent_inv (now : Z) (a : atom_t) :
  important_recent now a = true ->
  F32.gtb (a_importance a) F32.lit_0_8 = true /\ now - a_timestamp a < 300.
Proof.
  unfold important_recent. intros H.
  apply andb_true_iff in H as [H1 H2]. split; [exact H1|].
  now apply Z.ltb_lt.
Qed.

Section HiveProperties.

Variable pf : platform.

Lemma broadcast_knowledge_sends (c : hive_coordinator_t) (a : atom_t) (now : Z) :
  hive_broadcast_knowledge pf c a now =
  (set_sequence_counter c (u32_incr (sequence_counter c)),
   [mk_message (node_id c) 0 HIVE_MSG_KNOWLEDGE_SHARE
               (u32_incr (sequence_counter c)) now sizeof_knowledge_packet_t
               (knowledge_packet_bytes pf (knowledge_packet_from_atom a))]).
Proof.
  unfold hive_broadcast_knowledge.
  rewrite set_data_fits by (vm_compute; discriminate).
  reflexivity.
Qed.

Lemma request_healing_assistance_sends (c : hive_coordinator_t)
    (r : healing_request_t) (now : Z) :
  request_healing_assistance_impl pf c r now =
  (set_sequence_counter c (u32_incr (sequence_counter c)),
   [mk_message (node_id c) 0 HIVE_MSG_HEALING_REQUEST
               (u32_incr (sequence_counter c)) now sizeof_healing_request_t
               (healing_request_bytes pf r)]).
Proof.
  unfold request_healing_assistance_impl.
  rewrite set_data_fits by (vm_compute; discriminate).
  reflexivity.
Qed.

Lemma respond_to_healing_request_sends (c : hive_coordinator_t)
    (r : healing_request_t) (now : Z) :
  respond_to_healing_request_impl pf c r now =
  (set_sequence_counter c (u32_incr (sequence_counter c)),
   [mk_message (node_id c) (requesting_node r) HIVE_MSG_HEALING_RESPONSE
               (u32_incr (sequence_counter c)) now sizeof_healing_response_t
               (healing_response_bytes pf
                  (mk_response (problem_id r) (node_id c)
                     (healing_evaluate_problem (local_engine c)
                                               (problem_description r))
                     F32.lit_0_8))]).
Proof.
  unfold respond_to_healing_request_impl.
  rewrite set_data_fits by (vm_compute; discriminate).
  reflexivity.
Qed.

Lemma process_shared_knowledge_counter (c : hive_coordinator_t)
    (p : knowledge_packet_t) (now : Z) :
  sequence_counter (process_shared_knowledge_impl c p now) = sequence_counter c.
Proof.
  unfold process_shared_knowledge_impl.
  destruct (global_knowledge (local_engine c)); [|reflexivity].
  destruct (knowledge_packet_to_atom a p now). reflexivity.
Qed.

Lemma update_collective_topology_counter (c : hive_coordinator_t) (now : Z) :
  sequence_counter (hive_update_collective_topology pf c now) = sequence_counter c.
Proof.
  unfold hive_update_collective_topology.
  destruct (topology (local_engine c)); [|reflexivity].
  destruct (global_knowledge (local_engine c)); [|reflexivity].
  destruct (atomspace_add_atom _ _ _ _). reflexivity.
Qed.

(** C9.  A KnowledgeShare or HealingRequest envelope whose payload length
    is not the size of the structure it should carry is dispatched to
    nothing: the coordinator, its knowledge store included, is unchanged,
    no message is sent, and nothing is reported. *)
Theorem receive_wrong_length_is_ignored (c : hive_coordinator_t)
    (m : hive_message_t) (now : Z) :
  (m_type m = HIVE_MSG_KNOWLEDGE_SHARE /\
   data_length m <> sizeof_knowledge_packet_t) \/
  (m_type m = HIVE_MSG_HEALING_REQUEST /\
   data_length m <> sizeof_healing_request_t) ->
  receive_message_impl pf c m now = (c, []).
Proof.
  unfold receive_message_impl.
  intros [[-> Hlen]|[-> Hlen]].
  - destruct (Z.eqb_spec (data_length m) sizeof_knowledge_packet_t);
      [contradiction|reflexivity].
  - destruct (Z.eqb_spec (data_length m) sizeof_healing_request_t);
      [contradiction|reflexivity].
Qed.

(** C5.  [hive_coordinate_healing] broadcasts one HealingRequest (recipient
    0) exactly when the local evaluation yields [HEALING_NONE] or
    [HEALING_RETRY]; for every other action it sends nothing. *)
Theorem coordinate_healing_escalates_weak_outcomes (c : hive_coordinator_t)
    (problem_desc : string) (now : Z) (problem_id_counter : Z) :
  let local_action := healing_evaluate_problem (local_engine c) problem_desc in
  let sent :=
    snd (fst (hive_coordinate_healing pf c problem_desc now problem_id_counter)) in
  (local_action = HEALING_NONE \/ local_action = HEALING_RETRY <->
   exists m, sent = [m] /\ m_type m = HIVE_MSG_HEALING_REQUEST /\
             recipient_id m = 0 /\ sender_id m = node_id c) /\
  (local_action <> HEALING_NONE /\ local_action <> HEALING_RETRY <->
   sent = []).
Proof.
  cbv zeta. unfold hive_coordinate_healing, healing_request_create.
  destruct (healing_evaluate_problem (local_engine c) problem_desc) eqn:E;
    cbn [fst snd]; rewrite ?request_healing_assistance_sends; cbn [fst snd];
    (split; split;
     [ intros H; try (destruct H as [H|H]; discriminate);
       try (eexists; repeat split; reflexivity)
     | intros H; try (destruct H as (m & H & _); discriminate);
       try (now left); try (now right)
     | intros H; try (destruct H as [H1 H2]; congruence); reflexivity
     | intros H; try discriminate; split; discriminate ]).
Qed.

(** C10.  The response of [respond_to_healing_request_impl] always carries
    the confidence [0.8f], whatever the local evaluation found, and every
    request [hive_coordinate_healing] sends carries the severity [0.8f]. *)
Theorem healing_confidence_and_severity_are_constants (c : hive_coordinator_t)
    (request : healing_request_t) (problem_desc : string) (now : Z)
    (problem_id_counter : Z) :
  (exists m response,
     snd (respond_to_healing_request_impl pf c request now) = [m] /\
     m_type m = HIVE_MSG_HEALING_RESPONSE /\
     recipient_id m = requesting_node request /\
     data_length m = sizeof_healing_response_t /\
     data m = healing_response_bytes pf response /\
     rs_problem_id response = problem_id request /\
     recommended_action response =
       healing_evaluate_problem (local_engine c) (problem_description request) /\
     rs_confidence response = F32.lit_0_8) /\
  Forall (fun m => exists req,
            data_length m = sizeof_healing_request_t /\
            data m = healing_request_bytes pf req /\
            requesting_node req = node_id c /\
            severity req = F32.lit_0_8)
         (snd (fst (hive_coordinate_healing pf c problem_desc now
                                            problem_id_counter))).
Proof.
  split.
  - rewrite respond_to_healing_request_sends. cbn [snd].
    eexists. eexists. repeat split; reflexivity.
  - unfold hive_coordinate_healing, healing_request_create.
    destruct (healing_evaluate_problem (local_engine c) problem_desc);
      cbn [fst snd]; rewrite ?request_healing_assistance_sends; cbn [fst snd];
      constructor; try constructor.
    + eexists. repeat split; reflexivity.
    + eexists. repeat split; reflexivity.
Qed.

Lemma cycle_heartbeat_shares_nothing (c : hive_coordinator_t) (now : Z) :
  List.filter is_knowledge_share (snd (cycle_heartbeat c now)) = [].
Proof.
  unfold cycle_heartbeat.
  destruct (now - last_heartbeat c >=? 30); reflexivity.
Qed.

Lemma cycle_share_sends (c : hive_coordinator_t) (now : Z) :
  snd (cycle_share pf c now) =
  match first_important_recent (store_atoms c) now with
  | Some a =>
      [mk_message (node_id c) 0 HIVE_MSG_KNOWLEDGE_SHARE
                  (u32_incr (sequence_counter c)) now sizeof_knowledge_packet_t
                  (knowledge_packet_bytes pf (knowledge_packet_from_atom a))]
  | None => []
  end.
Proof.
  unfold cycle_share, store_atoms.
  destruct (global_knowledge (local_engine c)) as [space|]; [|reflexivity].
  destruct (first_important_recent (atoms space) now) as [a|] eqn:E;
    [|reflexivity].
  destruct (first_important_recent_Some _ _ _ E) as (l1 & l2 & _ & _ & Ha).
  apply important_recent_inv in Ha as [Ha _].
  unfold share_knowledge_impl.
  rewrite (f32_gt_0_8_gt_0_7 _ Ha), broadcast_knowledge_sends.
  reflexivity.
Qed.

(** C3, amended.  On each cycle the coordinator scans its store once, after
    the heartbeat and the knowledge synchronisation of that cycle, and
    broadcasts a KnowledgeShare for the first fact in list order whose
    importance is greater than 0.8 and whose age is below 300 seconds, and
    for no other fact; when no fact passes that test nothing is shared. *)
Theorem cycle_shares_first_important_recent (c : hive_coordinator_t) (now : Z) :
  let c1 := cycle_knowledge_sync pf (fst (cycle_heartbeat c now)) now in
  let shared :=
    List.filter is_knowledge_share
                (snd (hive_coordinator_process_cycle pf c now)) in
  match first_important_recent (store_atoms c1) now with
  | Some a =>
      shared =
        [mk_message (node_id c1) 0 HIVE_MSG_KNOWLEDGE_SHARE
                    (u32_incr (sequence_counter c1)) now
                    sizeof_knowledge_packet_t
                    (knowledge_packet_bytes pf (knowledge_packet_from_atom a))] /\
      F32.gtb (a_importance a) F32.lit_0_8 = true /\
      now - a_timestamp a < 300 /\
      exists before after,
        store_atoms c1 = before ++ a :: after /\
        Forall (fun b => important_recent now b = false) before
  | None =>
      shared = [] /\
      Forall (fun b => important_recent now b = false) (store_atoms c1)
  end.
Proof.
  cbv zeta. unfold hive_coordinator_process_cycle.
  pose proof (cycle_heartbeat_shares_nothing c now) as Hhb.
  destruct (cycle_heartbeat c now) as [c0 sent1]. cbn [fst snd] in *.
  pose proof (cycle_share_sends (cycle_knowledge_sync pf c0 now) now) as Hsh.
  destruct (cycle_share pf (cycle_knowledge_sync pf c0 now) now) as [c2 sent2].
  cbn [fst snd] in *.
  rewrite List.filter_app, Hhb, Hsh. cbn [app].
  destruct (first_important_recent
              (store_atoms (cycle_knowledge_sync pf c0 now)) now) as [a|] eqn:E.
  - destruct (first_important_recent_Some _ _ _ E) as (l1 & l2 & Hl & Hall & Ha).
    apply important_recent_inv in Ha as [Hi Ht].
    repeat split; try assumption.
    exists l1, l2. split; assumption.
  - split; [reflexivity|]. now apply first_important_recent_None.
Qed.

Lemma receive_counter (c : hive_coordinator_t) (m : hive_message_t) (now : Z) :
  sequence_counter (fst (receive_message_impl pf c m now)) =
  if answers_healing_request m then u32_incr (sequence_counter c)
  else sequence_counter c.
Proof.
  unfold receive_message_impl, answers_healing_request.
  destruct (m_type m); cbn [fst].
  - destruct (topology (local_engine c)); reflexivity.
  - destruct (data_length m =? sizeof_knowledge_packet_t); cbn [fst];
      [apply process_shared_knowledge_counter|reflexivity].
  - destruct (data_length m =? sizeof_healing_request_t);
      [rewrite respond_to_healing_request_sends|]; reflexivity.
  - reflexivity.
  - apply update_collective_topology_counter.
  - reflexivity.
Qed.

Lemma receive_sends (c : hive_coordinator_t) (m : hive_message_t) (now : Z) :
  snd (receive_message_impl pf c m now) =
  if answers_healing_request m then
    snd (respond_to_healing_request_impl
           pf c (healing_request_of_bytes pf (data m)) now)
  else [].
Proof.
  unfold receive_message_impl, answers_healing_request.
  destruct (m_type m); cbn [snd]; try reflexivity.
  - destruct (topology (local_engine c)); reflexivity.
  - destruct (data_length m =? sizeof_knowledge_packet_t); reflexivity.
  - destruct (data_length m =? sizeof_healing_request_t); reflexivity.
Qed.

(** C6, amended.  A send assigns the node's counter plus one, modulo 2^32,
    and keeps it as the new counter: over consecutive sends that stay
    below 2^32 the sequence numbers increase strictly and lie above the
    counter the run started from.  A receive changes the recipient's
    counter in one case only: the envelope is a HealingRequest of the
    structure's size, the recipient sends one HealingResponse, numbered
    from its own counter, and the counter advances by that one send; every
    other receive sends nothing and leaves the counter as it was. *)
Theorem sequence_numbers_follow_own_sends (c : hive_coordinator_t)
    (ms : list hive_message_t) (m : hive_message_t) (now : Z) :
  (forall m', send_message_impl c m' =
              (set_sequence_counter c (u32_incr (sequence_counter c)),
               [set_sequence_number m' (u32_incr (sequence_counter c))])) /\
  (0 <= sequence_counter c ->
   sequence_counter c + Z.of_nat (length ms) <= UINT32_MAX ->
   StronglySorted Z.lt (map sequence_number (snd (send_all c ms))) /\
   Forall (fun m' => sequence_counter c < sequence_number m')
          (snd (send_all c ms)) /\
   sequence_counter (fst (send_all c ms)) =
     sequence_counter c + Z.of_nat (length ms)) /\
  (answers_healing_request m = false ->
   snd (receive_message_impl pf c m now) = [] /\
   sequence_counter (fst (receive_message_impl pf c m now)) =
     sequence_counter c) /\
  (answers_healing_request m = true ->
   (exists r, snd (receive_message_impl pf c m now) = [r] /\
              m_type r = HIVE_MSG_HEALING_RESPONSE /\
              sender_id r = node_id c /\
              sequence_number r = u32_incr (sequence_counter c)) /\
   sequence_counter (fst (receive_message_impl pf c m now)) =
     u32_incr (sequence_counter c)).
Proof.
  split; [reflexivity|]. split.
  - intros Hlo Hhi.
    destruct (send_all_increasing ms c Hlo Hhi) as (H1 & H2 & H3).
    repeat split; assumption.
  - rewrite receive_counter, receive_sends. split; intros ->.
    + split; reflexivity.
    + split; [|reflexivity].
      rewrite respond_to_healing_request_sends. cbn [snd].
      eexists. repeat split; reflexivity.
Qed.

End HiveProperties.

(* ===================================================================== *)
(** ** The properties at concrete inputs *)
(* ===================================================================== *)

Lemma receive_wrong_length_is_ignored_witness :
  receive_message_impl example_platform (example_coordinator [] 1000)
                       empty_share_envelope 1010 =
  (example_coordinator [] 1000, []).
Proof.
  apply (receive_wrong_length_is_ignored
           example_platform (example_coordinator [] 1000)
           empty_share_envelope 1010).
  left. split; [reflexivity|]. vm_compute. discriminate.
Defined.

Lemma coordinate_healing_escalates_weak_outcomes_witness :
  (exists m,
     snd (fst (hive_coordinate_healing example_platform
                 (example_coordinator [] 1000) "timeout"%string 1010 1)) = [m] /\
     m_type m = HIVE_MSG_HEALING_REQUEST /\ recipient_id m = 0 /\
     sender_id m = 1001) /\
  snd (fst (hive_coordinate_healing example_platform
              (example_coordinator [] 1000) "node_failure"%string 1010 1)) = [].
Proof.
  split.
  - apply (coordinate_healing_escalates_weak_outcomes
             example_platform (example_coordinator [] 1000)
             "timeout"%string 1010 1).
    right. reflexivity.
  - apply (coordinate_healing_escalates_weak_outcomes
             example_platform (example_coordinator [] 1000)
             "node_failure"%string 1010 1).
    split; discriminate.
Defined.

(** C6, as stated, fails on both counts: a recipient that receives a
    HealingRequest of the structure's size has its sequence counter moved
    from 0 to 1, and a send at the counter 2^32 - 1 is numbered 0. *)
Lemma receive_moves_counter_and_send_wraps :
  sequence_counter (example_coordinator [] 1000) = 0 /\
  sequence_counter
    (fst (receive_message_impl example_platform (example_coordinator [] 1000)
                               healing_request_envelope 1010)) = 1 /\
  map sequence_number
      (snd (send_message_impl
              (set_sequence_counter (example_coordinator [] 1000) UINT32_MAX)
              heartbeat_envelope)) = [0].
Proof. vm_compute. repeat split. Qed.

Lemma sequence_numbers_follow_own_sends_witness :
  (StronglySorted Z.lt
     (map sequence_number
          (snd (send_all (example_coordinator [] 1000)
                         [heartbeat_envelope; empty_share_envelope;
                          heartbeat_envelope]))) /\
   sequence_counter
     (fst (send_all (example_coordinator [] 1000)
                    [heartbeat_envelope; empty_share_envelope;
                     heartbeat_envelope])) = 3) /\
  (snd (receive_message_impl example_platform (example_coordinator [] 1000)
                             heartbeat_envelope 1010) = [] /\
   sequence_counter
     (fst (receive_message_impl example_platform (example_coordinator [] 1000)
                                heartbeat_envelope 1010)) = 0) /\
  sequence_counter
    (fst (receive_message_impl example_platform (example_coordinator [] 1000)
                               healing_request_envelope 1010)) = 1.
Proof.
  split; [|split].
  - destruct (sequence_numbers_follow_own_sends
                example_platform (example_coordinator [] 1000)
                [heartbeat_envelope; empty_share_envelope; heartbeat_envelope]
                heartbeat_envelope 1010) as (_ & H & _).
    destruct H as (H1 & _ & H3); [simpl; lia|vm_compute; discriminate|].
    split; [exact H1|exact H3].
  - apply (sequence_numbers_follow_own_sends
             example_platform (example_coordinator [] 1000) []
             heartbeat_envelope 1010).
    reflexivity.
  - apply (sequence_numbers_follow_own_sends
             example_platform (example_coordinator [] 1000) []
             healing_request_envelope 1010).
    reflexivity.
Defined.

(** C3, as stated, fails between the two thresholds: a fact with
    importance 0.75, ten seconds old, is above 0.7 and recent, and the
    cycle sends nothing. *)
Lemma importance_0_75_is_not_shared :
  let fact := example_fact (F32.of_decimal 75 100) 1000 in
  F32.gtb (a_importance fact) F32.lit_0_7 = true /\
  1010 - a_timestamp fact < 300 /\
  snd (hive_coordinator_process_cycle
         example_platform (example_coordinator [fact] 1000) 1010) = [].
Proof. vm_compute. repeat split. Qed.

(** A fact with importance 0.65 never passes the test of the scan. *)
Lemma importance_0_65_is_never_shared (now : Z) (a : atom_t) :
  a_importance a = F32.of_decimal 65 100 -> important_recent now a = false.
Proof. unfold important_recent. intros ->. reflexivity. Qed.

(** A fact with importance 0.85 and ten seconds old is broadcast. *)
Example importance_0_85_recent_is_shared :
  let fact := example_fact (F32.of_decimal 85 100) 1000 in
  snd (hive_coordinator_process_cycle
         example_platform (example_coordinator [fact] 1000) 1010) =
  [mk_message 1001 0 HIVE_MSG_KNOWLEDGE_SHARE 1 1010 280
              (knowledge_packet_bytes example_platform
                                      (knowledge_packet_from_atom fact))].
Proof. vm_compute. reflexivity. Qed.

(** The same fact, 301 seconds old, is not. *)
Example importance_0_85_old_is_not_shared :
  let fact := example_fact (F32.of_decimal 85 100) 1000 in
  snd (hive_coordinator_process_cycle
         example_platform (example_coordinator [fact] 1300) 1301) = [].
Proof. vm_compute. reflexivity. Qed.

(** Only the first of two eligible facts is shared. *)
Example one_share_per_cycle :
  let first := example_fact (F32.of_decimal 85 100) 1000 in
  let second := mk_atom 2 ATOM_CONCEPT "other"%string F32.lit_0_9 F32.lit_0_9
                        F32.lit_1_0 1000 in
  snd (hive_coordinator_process_cycle
         example_platform (example_coordinator [first; second] 1000) 1010) =
  [mk_message 1001 0 HIVE_MSG_KNOWLEDGE_SHARE 1 1010 280
              (knowledge_packet_bytes example_platform
                                      (knowledge_packet_from_atom first))].
Proof. vm_compute. reflexivity. Qed.

(* ===================================================================== *)
(** ** Further properties: the order of the numbers *)
(* ===================================================================== *)

(** Case analysis on the comparisons of exponents and mantissas. *)
Ltac f32_orders :=
  repeat match goal with
  | |- context [Pos.compare_cont Eq ?a ?b] =>
      change (Pos.compare_cont Eq a b) with (Pos.compare a b)
  end;
  repeat match goal with
  | |- context [Z.compare ?a ?b] => destruct (Z.compare_spec a b)
  | |- context [Pos.compare ?a ?b] => destruct (Pos.compare_spec a b)
  end;
  simpl; try discriminate; try reflexivity; try lia; try tauto.

Lemma f32_lt_trans (a b c : f32) :
  F32.ltb a b = true -> F32.ltb b c = true -> F32.ltb a c = true.
Proof.
  unfold F32.ltb, SFltb, SFcompare.
  destruct a as [[]|[]| |[] ma ea], b as [[]|[]| |[] mb eb],
           c as [[]|[]| |[] mc ec];
    try discriminate; try reflexivity; f32_orders.
Qed.

(** Below [c], and [b] a number: below [b], or [b] below [c]. *)
Lemma f32_lt_cotrans (a b c : f32) :
  F32.ltb a c = true -> b <> S754_nan ->
  F32.ltb a b = true \/ F32.ltb b c = true.
Proof.
  unfold F32.ltb, SFltb, SFcompare.
  destruct a as [[]|[]| |[] ma ea], b as [[]|[]| |[] mb eb],
           c as [[]|[]| |[] mc ec];
    try discriminate; try tauto; try congruence; f32_orders.
Qed.

Lemma f32_gt_nan_r (x : f32) : F32.gtb x S754_nan = false.
Proof. reflexivity. Qed.

Lemma f32_gt_nan_l (x : f32) : F32.gtb S754_nan x = false.
Proof.
  unfold F32.gtb, SFltb, SFcompare. destruct x as [?|?| |? ? ?]; reflexivity.
Qed.

Lemma u32_incr_mod (n : Z) : u32_incr (n mod 2 ^ 32) = (n + 1) mod 2 ^ 32.
Proof. unfold u32_incr. now rewrite Z.add_mod_idemp_l. Qed.

(* ===================================================================== *)
(** ** Further properties: the knowledge store *)
(* ===================================================================== *)

Lemma upsert_all_unique_short_names_witness :
  NoDup (names (upsert_all atomspace_create
                  [(ATOM_CONCEPT, "self"%string, 0);
                   (ATOM_CONCEPT, "health"%string, 0);
                   (ATOM_PREDICATE, "self"%string, 1)])).
Proof.
  apply (upsert_all_unique_short_names
           [(ATOM_CONCEPT, "self"%string, 0);
            (ATOM_CONCEPT, "health"%string, 0);
            (ATOM_PREDICATE, "self"%string, 1)]).
  repeat constructor; simpl; lia.
Defined.

Lemma upsert_existing_increments_importance_witness :
  let '(space', j) :=
    atomspace_add_atom
      (mk_space [example_fact F32.lit_1_0 0] 1 2) ATOM_NODE "fact"%string 5 in
  j = 0%nat /\
  atoms space' !! 0%nat =
    Some (set_importance (example_fact F32.lit_1_0 0)
                         (F32.add F32.lit_1_0 F32.lit_0_1)) /\
  length (atoms space') = 1%nat /\
  atom_count space' = 1.
Proof.
  apply (upsert_existing_increments_importance
           (mk_space [example_fact F32.lit_1_0 0] 1 2) ATOM_NODE
           "fact"%string 5 0%nat (example_fact F32.lit_1_0 0));
    reflexivity.
Defined.

Lemma find_from_alter (f : atom_t -> atom_t) (i : nat) (l : list atom_t)
    (name : string) :
  (forall a, a_name (f a) = a_name a) ->
  find_from (alter f i l) name = find_from l name.
Proof.
  intros Hf. revert i. induction l as [|a l IH]; intros [|i]; simpl;
    try reflexivity.
  - now rewrite Hf.
  - destruct (streq (a_name a) name); [reflexivity|]. f_equal. apply IH.
Qed.

Lemma update_truth_value_frame (a : atom_t) (t c : f32) (now : Z) :
  let a' := atomspace_update_truth_value a t c now in
  a_name a' = a_name a /\ a_id a' = a_id a /\ a_type a' = a_type a /\
  a_importance a' = a_importance a /\ a_timestamp a' = now.
Proof.
  unfold atomspace_update_truth_value.
  destruct (F32.gtb (F32.add (a_confidence a) c) F32.zero); simpl; tauto.
Qed.

Lemma add_atom_find (space : atom_space_t) (type : atom_type_t)
    (name : string) (now : Z) :
  (String.length name <= 255)%nat ->
  let '(space', i) := atomspace_add_atom space type name now in
  atomspace_find_atom space' name = Some i /\
  exists a, atoms space' !! i = Some a /\ a_name a = name.
Proof.
  intros Hlen. unfold atomspace_add_atom, atomspace_find_atom.
  destruct (find_from (atoms space) name) as [i|] eqn:E; cbn [atoms fst snd].
  - rewrite find_from_alter by reflexivity. split; [exact E|].
    destruct (find_from_Some _ _ _ E) as (a & Ha & Hn).
    rewrite list_lookup_alter_eq, Ha. simpl.
    eexists. split; [reflexivity|exact Hn].
  - rewrite (strncpy_short 255 name Hlen). cbn [find_from a_name].
    unfold streq. rewrite String.eqb_refl. split; [reflexivity|].
    eexists. split; reflexivity.
Qed.

(** X3.  Insert, then look up: after [atomspace_add_atom] with a name of
    at most 255 characters, [atomspace_find_atom] with that name returns
    the very atom the call returned, and that atom carries the name. *)
Theorem add_atom_then_find (space : atom_space_t) (type : atom_type_t)
    (name : string) (now : Z) :
  (String.length name <= 255)%nat ->
  let '(space', i) := atomspace_add_atom space type name now in
  atomspace_find_atom space' name = Some i /\
  exists a, atoms space' !! i = Some a /\ a_name a = name.
Proof. apply add_atom_find. Qed.

Lemma add_atom_then_find_witness :
  let '(space', i) :=
    atomspace_add_atom (mk_space [example_fact F32.lit_1_0 0] 1 2)
                       ATOM_CONCEPT "network_stability"%string 7 in
  atomspace_find_atom space' "network_stability"%string = Some i /\
  exists a, atoms space' !! i = Some a /\
            a_name a = "network_stability"%string.
Proof.
  apply (add_atom_then_find (mk_space [example_fact F32.lit_1_0 0] 1 2)
                            ATOM_CONCEPT "network_stability"%string 7).
  simpl. lia.
Defined.

(** X4.  [atomspace_add_atom] touches one atom at most: on a name it finds,
    every other position of the store is as before and the store has the
    same length; on a new name the atom goes to the head and all the old
    atoms follow it unchanged. *)
Theorem add_atom_keeps_other_atoms (space : atom_space_t) (type : atom_type_t)
    (name : string) (now : Z) :
  let '(space', i) := atomspace_add_atom space type name now in
  match atomspace_find_atom space name with
  | Some _ =>
      length (atoms space') = length (atoms space) /\
      forall j, j <> i -> atoms space' !! j = atoms space !! j
  | None =>
      i = 0%nat /\ forall j, atoms space' !! S j = atoms space !! j
  end.
Proof.
  unfold atomspace_add_atom.
  destruct (atomspace_find_atom space name) as [i|]; simpl.
  - split; [apply length_alter|].
    intros j Hj. apply list_lookup_alter_ne. congruence.
  - split; reflexivity.
Qed.

Lemma Forall_alter_pres {A} (P : A -> Prop) (f : A -> A) (i : nat) (l : list A) :
  (forall x, P x -> P (f x)) -> Forall P l -> Forall P (alter f i l).
Proof.
  intros Hf H. apply Forall_alter; [exact H|]. intros x _. apply Hf.
Qed.

Lemma add_atom_counted space type name now :
  counted space -> counted (fst (atomspace_add_atom space type name now)).
Proof.
  unfold counted, atomspace_add_atom. intros [Hc Hn].
  destruct (atomspace_find_atom space name); simpl.
  - rewrite length_alter. split; assumption.
  - rewrite Hc, Hn, !u32_incr_mod. split; f_equal; lia.
Qed.

Lemma add_atom_name_fits space type name now :
  Forall name_fits (atoms space) ->
  Forall name_fits (atoms (fst (atomspace_add_atom space type name now))).
Proof.
  unfold atomspace_add_atom. intros H.
  destruct (atomspace_find_atom space name); simpl.
  - apply Forall_alter_pres; [|exact H]. intros x Hx. exact Hx.
  - constructor; [|exact H]. unfold name_fits. simpl. apply strncpy_length.
Qed.

Lemma packet_to_atom_atoms space packet now :
  fst (knowledge_packet_to_atom space packet now) =
  let sp :=
    atomspace_add_atom space (kp_atom_type packet) (kp_atom_name packet) now in
  mk_space
     (alter (fun atom =>
               set_timestamp
                 (set_importance
                    (atomspace_update_truth_value
                       atom (kp_truth_value packet) (kp_confidence packet) now)
                    (kp_importance packet))
                 (kp_timestamp packet))
            (snd sp) (atoms (fst sp)))
     (atom_count (fst sp)) (next_id (fst sp)).
Proof.
  unfold knowledge_packet_to_atom.
  destruct (atomspace_add_atom _ _ _ _). reflexivity.
Qed.

Lemma store_step_counted space call :
  counted space -> counted (store_step space call).
Proof.
  destruct call as [type name now|packet now]; simpl.
  - apply add_atom_counted.
  - intros H. rewrite packet_to_atom_atoms. cbv zeta.
    pose proof (add_atom_counted space (kp_atom_type packet)
                  (kp_atom_name packet) now H) as [Hc Hn].
    unfold counted. simpl. rewrite length_alter. split; assumption.
Qed.

Lemma store_step_name_fits space call :
  Forall name_fits (atoms space) ->
  Forall name_fits (atoms (store_step space call)).
Proof.
  destruct call as [type name now|packet now]; simpl.
  - apply add_atom_name_fits.
  - intros H. rewrite packet_to_atom_atoms. cbv zeta. simpl.
    apply Forall_alter_pres; [|now apply add_atom_name_fits].
    intros x Hx. unfold name_fits in *.
    change (String.length
              (a_name (atomspace_update_truth_value
                         x (kp_truth_value packet) (kp_confidence packet) now))
            <= 255)%nat.
    now rewrite (proj1 (update_truth_value_frame x _ _ now)).
Qed.

Lemma store_run_invariant (P : atom_space_t -> Prop) (calls : list store_call) :
  (forall space call, P space -> P (store_step space call)) ->
  forall space, P space -> P (store_run space calls).
Proof.
  intros Hstep. unfold store_run.
  induction calls as [|call calls IH]; intros space H; simpl; [exact H|].
  apply IH, Hstep, H.
Qed.

(** X5.  Whatever atoms are added and whatever packets are decoded into a
    store that started empty, [atom_count] is the number of atoms and
    [next_id] one more (both modulo 2^32), no stored name is longer than
    255 characters, and so a look-up by a longer name finds nothing. *)
Theorem store_run_counts_and_bounds_names (calls : list store_call) :
  let space := store_run atomspace_create calls in
  atom_count space = Z.of_nat (length (atoms space)) mod 2 ^ 32 /\
  next_id space = (Z.of_nat (length (atoms space)) + 1) mod 2 ^ 32 /\
  Forall (fun n => (String.length n <= 255)%nat) (names space) /\
  forall name, (255 < String.length name)%nat ->
               atomspace_find_atom space name = None.
Proof.
  cbv zeta.
  assert (Hc : counted (store_run atomspace_create calls)).
  { apply store_run_invariant; [apply store_step_counted|].
    split; reflexivity. }
  assert (Hn : Forall name_fits (atoms (store_run atomspace_create calls))).
  { apply (store_run_invariant (fun sp => Forall name_fits (atoms sp)));
      [apply store_step_name_fits|constructor]. }
  destruct Hc as [Hc1 Hc2]. repeat split; try assumption.
  - unfold names. apply Forall_map. exact Hn.
  - intros name Hlong. unfold atomspace_find_atom.
    destruct (find_from _ name) as [i|] eqn:E; [|reflexivity].
    destruct (find_from_Some _ _ _ E) as (a & Ha & Hname).
    rewrite Forall_forall in Hn.
    assert (Hin : a ∈ atoms (store_run atomspace_create calls))
      by (eapply list_elem_of_lookup_2; exact Ha).
    specialize (Hn a Hin). unfold name_fits in Hn. rewrite Hname in Hn. lia.
Qed.

Lemma merge_confidence_bounded (a : atom_t) (t c : f32) (now : Z) :
  at_most_one (a_confidence a) ->
  at_most_one (a_confidence (atomspace_update_truth_value a t c now)).
Proof.
  unfold at_most_one, atomspace_update_truth_value. intros H.
  destruct (F32.gtb (F32.add (a_confidence a) c) F32.zero); simpl; [|exact H].
  destruct (F32.gtb (F32.div (F32.add (a_confidence a) c) F32.lit_2_0)
                    F32.lit_1_0) eqn:E; [reflexivity|exact E].
Qed.

Lemma store_step_confidence_fits space call :
  Forall confidence_fits (atoms space) ->
  Forall confidence_fits (atoms (store_step space call)).
Proof.
  assert (Hadd : forall type name now,
            Forall confidence_fits (atoms space) ->
            Forall confidence_fits
                   (atoms (fst (atomspace_add_atom space type name now)))).
  { intros type name now H. unfold atomspace_add_atom.
    destruct (atomspace_find_atom space name); simpl.
    - apply Forall_alter_pres; [|exact H]. intros x Hx. exact Hx.
    - constructor; [reflexivity|exact H]. }
  destruct call as [type name now|packet now]; simpl; [apply Hadd|].
  intros H. rewrite packet_to_atom_atoms. cbv zeta. simpl.
  apply Forall_alter_pres; [|now apply Hadd].
  intros x Hx. apply (merge_confidence_bounded x _ _ now Hx).
Qed.

(** X6.  No packet can push a confidence above one: in a store that started
    empty, after any additions and any decoded packets, whatever truth
    values and confidences those packets carry (huge, negative, infinite,
    NaN), [confidence > 1.0f] is false for every atom. *)
Theorem store_run_confidence_at_most_one (calls : list store_call) :
  Forall (fun a => at_most_one (a_confidence a))
         (atoms (store_run atomspace_create calls)).
Proof.
  apply (store_run_invariant (fun sp => Forall confidence_fits (atoms sp)));
    [apply store_step_confidence_fits|constructor].
Qed.

(** X7.  A NaN truth value is absorbing: [atomspace_update_truth_value]
    leaves a NaN truth value NaN whatever is merged into it, and merging a
    NaN truth value with a weight that makes the sum of confidences
    positive turns the stored truth value into NaN. *)
Theorem nan_truth_is_absorbing (a : atom_t) (t c : f32) (now : Z) :
  a_truth_value a = S754_nan \/
  (t = S754_nan /\ F32.gtb (F32.add (a_confidence a) c) F32.zero = true) ->
  a_truth_value (atomspace_update_truth_value a t c now) = S754_nan.
Proof.
  unfold atomspace_update_truth_value.
  intros [H|[-> H]].
  - destruct (F32.gtb (F32.add (a_confidence a) c) F32.zero); simpl; [|exact H].
    rewrite H. reflexivity.
  - rewrite H. simpl.
    unfold F32.div, F32.add at 1, F32.mul at 2.
    destruct (F32.mul (a_truth_value a) (a_confidence a)) as [?|?| |? ? ?];
      reflexivity.
Qed.

Lemma nan_truth_is_absorbing_witness :
  a_truth_value
    (atomspace_update_truth_value (example_fact F32.lit_1_0 0)
                                  S754_nan F32.lit_0_5 9) = S754_nan.
Proof.
  apply (nan_truth_is_absorbing (example_fact F32.lit_1_0 0)
                                S754_nan F32.lit_0_5 9).
  right. split; reflexivity.
Defined.

Lemma packet_to_atom_result (space : atom_space_t)
    (packet : knowledge_packet_t) (now : Z) :
  (String.length (kp_atom_name packet) <= 255)%nat ->
  let '(space', i) := knowledge_packet_to_atom space packet now in
  (exists a, atoms space' !! i = Some a /\
             a_name a = kp_atom_name packet /\
             a_importance a = kp_importance packet /\
             a_timestamp a = kp_timestamp packet) /\
  atomspace_find_atom space' (kp_atom_name packet) = Some i /\
  length (atoms space') =
    match atomspace_find_atom space (kp_atom_name packet) with
    | Some _ => length (atoms space)
    | None => S (length (atoms space))
    end.
Proof.
  intros Hlen. unfold knowledge_packet_to_atom.
  pose proof (add_atom_find space (kp_atom_type packet)
                (kp_atom_name packet) now Hlen) as Hadd.
  assert (Hl : length (atoms (fst (atomspace_add_atom space (kp_atom_type packet)
                 (kp_atom_name packet) now))) =
               match atomspace_find_atom space (kp_atom_name packet) with
               | Some _ => length (atoms space)
               | None => S (length (atoms space))
               end).
  { unfold atomspace_add_atom.
    destruct (atomspace_find_atom space (kp_atom_name packet)); simpl;
      [apply length_alter|reflexivity]. }
  destruct (atomspace_add_atom space (kp_atom_type packet)
              (kp_atom_name packet) now) as [space1 i].
  destruct Hadd as (Hfind & a & Ha & Hname). cbn [fst] in Hl.
  cbn [atoms]. split; [|split].
  - rewrite list_lookup_alter_eq, Ha. cbn [fmap option_fmap option_map].
    eexists. split; [reflexivity|].
    cbn [a_name a_importance a_timestamp set_timestamp set_importance].
    split; [|split; reflexivity].
    rewrite (proj1 (update_truth_value_frame a _ _ now)). exact Hname.
  - unfold atomspace_find_atom in *. cbn [atoms].
    rewrite find_from_alter; [exact Hfind|].
    intros x. apply (proj1 (update_truth_value_frame x _ _ now)).
  - rewrite length_alter. exact Hl.
Qed.

(** X8.  The packet wins on importance and timestamp, in any store: after
    [knowledge_packet_to_atom] with a name of at most 255 characters the
    atom returned carries the packet's name, importance and timestamp (the
    [+0.1f] of the look-up is overwritten), it is the atom a look-up by
    that name finds, and the store grew by one atom if the name was new
    and not at all otherwise. *)
Theorem packet_to_atom_overwrites (space : atom_space_t)
    (packet : knowledge_packet_t) (now : Z) :
  (String.length (kp_atom_name packet) <= 255)%nat ->
  let '(space', i) := knowledge_packet_to_atom space packet now in
  (exists a, atoms space' !! i = Some a /\
             a_name a = kp_atom_name packet /\
             a_importance a = kp_importance packet /\
             a_timestamp a = kp_timestamp packet) /\
  atomspace_find_atom space' (kp_atom_name packet) = Some i /\
  length (atoms space') =
    match atomspace_find_atom space (kp_atom_name packet) with
    | Some _ => length (atoms space)
    | None => S (length (atoms space))
    end.
Proof. apply packet_to_atom_result. Qed.

Lemma packet_to_atom_overwrites_witness :
  let '(space', i) :=
    knowledge_packet_to_atom (mk_space [threat_fact] 1 2) threat_packet 2000 in
  (exists a, atoms space' !! i = Some a /\
             a_name a = kp_atom_name threat_packet /\
             a_importance a = kp_importance threat_packet /\
             a_timestamp a = kp_timestamp threat_packet) /\
  atomspace_find_atom space' (kp_atom_name threat_packet) = Some i /\
  length (atoms space') =
    match atomspace_find_atom (mk_space [threat_fact] 1 2)
                              (kp_atom_name threat_packet) with
    | Some _ => length (atoms (mk_space [threat_fact] 1 2))
    | None => S (length (atoms (mk_space [threat_fact] 1 2)))
    end.
Proof.
  apply (packet_to_atom_overwrites (mk_space [threat_fact] 1 2)
                                   threat_packet 2000).
  simpl. lia.
Defined.

(** X9.  A packet delivered twice is integrated once: the second
    [knowledge_packet_to_atom] of a packet (name of at most 255
    characters) returns the atom of the first, adds no atom and leaves the
    names and [atom_count] as they were. *)
Theorem packet_redelivery_adds_nothing (space : atom_space_t)
    (packet : knowledge_packet_t) (now now' : Z) :
  (String.length (kp_atom_name packet) <= 255)%nat ->
  let space1 := fst (knowledge_packet_to_atom space packet now) in
  let space2 := fst (knowledge_packet_to_atom space1 packet now') in
  names space2 = names space1 /\ atom_count space2 = atom_count space1 /\
  snd (knowledge_packet_to_atom space1 packet now') =
    snd (knowledge_packet_to_atom space packet now).
Proof.
  intros Hlen. cbv zeta.
  pose proof (packet_to_atom_result space packet now Hlen) as H1.
  destruct (knowledge_packet_to_atom space packet now) as [space1 i].
  destruct H1 as (_ & Hfind & _). cbn [fst snd].
  unfold knowledge_packet_to_atom at 1 2 3, atomspace_add_atom.
  rewrite Hfind. cbn [fst snd atoms atom_count]. unfold names. cbn [atoms].
  split; [|split; reflexivity].
  rewrite !names_alter; try reflexivity.
  intros x. apply (proj1 (update_truth_value_frame x _ _ now')).
Qed.

Lemma packet_redelivery_adds_nothing_witness :
  names (fst (knowledge_packet_to_atom
                (fst (knowledge_packet_to_atom atomspace_create
                                               threat_packet 2000))
                threat_packet 2001)) =
  names (fst (knowledge_packet_to_atom atomspace_create threat_packet 2000)) /\
  atom_count (fst (knowledge_packet_to_atom
                     (fst (knowledge_packet_to_atom atomspace_create
                                                    threat_packet 2000))
                     threat_packet 2001)) =
  atom_count (fst (knowledge_packet_to_atom atomspace_create
                                            threat_packet 2000)) /\
  snd (knowledge_packet_to_atom
         (fst (knowledge_packet_to_atom atomspace_create threat_packet 2000))
         threat_packet 2001) =
  snd (knowledge_packet_to_atom atomspace_create threat_packet 2000).
Proof.
  apply (packet_redelivery_adds_nothing atomspace_create threat_packet
                                        2000 2001).
  simpl. lia.
Defined.

Lemma ids_alter (f : atom_t -> atom_t) (i : nat) (l : list atom_t) :
  (forall a, a_id (f a) = a_id a) ->
  map a_id (alter f i l) = map a_id l.
Proof.
  intros Hf. revert i. induction l as [|a l IH]; intros [|i]; simpl;
    try reflexivity.
  - now rewrite Hf.
  - f_equal. apply IH.
Qed.

Lemma ids_fresh_alter (f : atom_t -> atom_t) (i : nat) (space : atom_space_t) :
  (forall a, a_id (f a) = a_id a) ->
  ids_fresh space ->
  ids_fresh (mk_space (alter f i (atoms space)) (atom_count space)
                      (next_id space)).
Proof.
  intros Hf (Hn & Hall & Hnd). unfold ids_fresh. cbn [atoms next_id].
  rewrite length_alter, ids_alter by exact Hf.
  repeat split; try assumption.
  apply Forall_alter; [exact Hall|]. intros x _ Hx. now rewrite Hf.
Qed.

Lemma add_atom_ids_fresh space type name now :
  Z.of_nat (length (atoms space)) + 1 < UINT32_MAX ->
  ids_fresh space ->
  ids_fresh (fst (atomspace_add_atom space type name now)).
Proof.
  intros Hb H. unfold atomspace_add_atom.
  destruct (atomspace_find_atom space name); cbn [fst].
  - now apply ids_fresh_alter.
  - destruct H as (Hn & Hall & Hnd). unfold ids_fresh. cbn [atoms next_id].
    assert (Hi : u32_incr (next_id space) = next_id space + 1)
      by (apply u32_incr_below; lia).
    rewrite Hi. repeat split.
    + rewrite Hn. simpl length. lia.
    + constructor; [simpl; lia|].
      eapply Forall_impl; [exact Hall|]. simpl. intros; lia.
    + simpl. apply NoDup_cons. split; [|exact Hnd].
      rewrite list_elem_of_In, in_map_iff. intros (a & Ha & Hin).
      rewrite Forall_forall in Hall.
      apply list_elem_of_In in Hin. specialize (Hall a Hin). lia.
Qed.

Lemma add_atom_length space type name now :
  (length (atoms (fst (atomspace_add_atom space type name now)))
   <= S (length (atoms space)))%nat.
Proof.
  unfold atomspace_add_atom.
  destruct (atomspace_find_atom space name); simpl;
    [rewrite length_alter|]; lia.
Qed.

Lemma store_step_length space call :
  (length (atoms (store_step space call)) <= S (length (atoms space)))%nat.
Proof.
  destruct call as [type name now|packet now]; simpl.
  - apply add_atom_length.
  - rewrite packet_to_atom_atoms. cbv zeta. cbn [atoms].
    rewrite length_alter. apply add_atom_length.
Qed.

Lemma store_step_ids_fresh space call :
  Z.of_nat (length (atoms space)) + 1 < UINT32_MAX ->
  ids_fresh space -> ids_fresh (store_step space call).
Proof.
  intros Hb H. destruct call as [type name now|packet now]; simpl.
  - now apply add_atom_ids_fresh.
  - rewrite packet_to_atom_atoms. cbv zeta.
    pose proof (add_atom_ids_fresh space (kp_atom_type packet)
                  (kp_atom_name packet) now Hb H) as H'.
    apply ids_fresh_alter; [|exact H'].
    intros a. cbn [a_id set_timestamp set_importance].
    apply (update_truth_value_frame a _ _ now).
Qed.

(** X10.  Identifiers are unique while the 32-bit counter has not wrapped:
    after fewer than 2^32 - 2 additions and decoded packets on a store that
    started empty, no two atoms have the same [id], and every [id] lies
    between 1 and [next_id]. *)
Theorem store_run_ids_unique (calls : list store_call) :
  Z.of_nat (length calls) + 1 < UINT32_MAX ->
  let space := store_run atomspace_create calls in
  NoDup (map a_id (atoms space)) /\
  Forall (fun a => 1 <= a_id a < next_id space) (atoms space).
Proof.
  intros Hb. cbv zeta. revert Hb.
  assert (G : forall space,
            ids_fresh space ->
            Z.of_nat (length (atoms space)) + Z.of_nat (length calls) + 1
              < UINT32_MAX ->
            ids_fresh (store_run space calls)).
  { unfold store_run. induction calls as [|call calls IH]; intros space H Hlen;
      simpl; [exact H|].
    simpl length in Hlen. apply IH.
    - apply store_step_ids_fresh; [lia|exact H].
    - pose proof (store_step_length space call). lia. }
  intros Hb. destruct (G atomspace_create) as (_ & Hall & Hnd).
  - repeat split; [constructor|apply NoDup_nil; exact I].
  - simpl length at 1. lia.
  - split; assumption.
Qed.

Lemma store_run_ids_unique_witness :
  NoDup (map a_id
           (atoms (store_run atomspace_create
                     [AddAtom ATOM_CONCEPT "self"%string 0;
                      DecodePacket threat_packet 1;
                      AddAtom ATOM_CONCEPT "self"%string 2]))) /\
  Forall (fun a =>
            1 <= a_id a <
            next_id (store_run atomspace_create
                       [AddAtom ATOM_CONCEPT "self"%string 0;
                        DecodePacket threat_packet 1;
                        AddAtom ATOM_CONCEPT "self"%string 2]))
         (atoms (store_run atomspace_create
                   [AddAtom ATOM_CONCEPT "self"%string 0;
                    DecodePacket threat_packet 1;
                    AddAtom ATOM_CONCEPT "self"%string 2])).
Proof.
  apply (store_run_ids_unique
           [AddAtom ATOM_CONCEPT "self"%string 0;
            DecodePacket threat_packet 1;
            AddAtom ATOM_CONCEPT "self"%string 2]).
  vm_compute. reflexivity.
Defined.

(* ===================================================================== *)
(** ** Further properties: the topology *)
(* ===================================================================== *)

Lemma refresh_node_Some l id address now l' :
  refresh_node l id address now = Some l' ->
  map n_node_id l' = map n_node_id l /\ In id (map n_node_id l).
Proof.
  revert l'. induction l as [|n l IH]; simpl; intros l' H; [discriminate|].
  destruct (Z.eqb_spec (n_node_id n) id) as [E|E].
  - injection H as <-. simpl. split; [reflexivity|now left].
  - destruct (refresh_node l id address now) as [l1|]; [|discriminate].
    injection H as <-. destruct (IH l1 eq_refl) as [H1 H2].
    simpl. split; [now rewrite H1|now right].
Qed.

Lemma refresh_node_healths l id address now l' :
  refresh_node l id address now = Some l' ->
  map n_health_score l' = map n_health_score l.
Proof.
  revert l'. induction l as [|n l IH]; simpl; intros l' H; [discriminate|].
  destruct (n_node_id n =? id); [injection H as <-; reflexivity|].
  destruct (refresh_node l id address now) as [l1|]; [|discriminate].
  injection H as <-. simpl. f_equal. now apply IH.
Qed.

Lemma refresh_node_None l id address now :
  refresh_node l id address now = None -> ~ In id (map n_node_id l).
Proof.
  induction l as [|n l IH]; simpl; intros H; [tauto|].
  destruct (Z.eqb_spec (n_node_id n) id) as [E|E]; [discriminate|].
  destruct (refresh_node l id address now); [discriminate|].
  intros [F|F]; [contradiction|now apply IH].
Qed.

Lemma set_node_health_ids l id health now :
  map n_node_id (set_node_health l id health now) = map n_node_id l.
Proof.
  induction l as [|n l IH]; simpl; [reflexivity|].
  destruct (n_node_id n =? id); simpl; [reflexivity|now rewrite IH].
Qed.

Lemma set_node_health_unknown l id health now :
  ~ In id (map n_node_id l) -> set_node_health l id health now = l.
Proof.
  induction l as [|n l IH]; simpl; intros H; [reflexivity|].
  destruct (Z.eqb_spec (n_node_id n) id) as [E|E]; [tauto|].
  f_equal. apply IH. tauto.
Qed.

Lemma set_node_health_known l id health now :
  In id (map n_node_id l) ->
  exists n, In n (set_node_health l id health now) /\
            n_node_id n = id /\ n_health_score n = health /\
            n_last_seen n = now.
Proof.
  induction l as [|n l IH]; simpl; intros H; [tauto|].
  destruct (Z.eqb_spec (n_node_id n) id) as [E|E].
  - eexists. split; [left; reflexivity|]. simpl. tauto.
  - destruct H as [H|H]; [contradiction|].
    destruct (IH H) as (m & Hm & Hrest).
    exists m. split; [now right|exact Hrest].
Qed.

Lemma healthy_total_spec l total k :
  healthy_total l total k =
  (fold_left F32.add (map n_health_score (List.filter is_healthy l)) total,
   k + Z.of_nat (length (List.filter is_healthy l))).
Proof.
  revert total k. induction l as [|n l IH]; intros total k; simpl.
  - f_equal. lia.
  - fold (is_healthy n).
    destruct (is_healthy n); rewrite IH; simpl length; f_equal; lia.
Qed.

Lemma topology_update_nodes topo id health now :
  nodes (topology_update_node_health topo id health now) =
    set_node_health (nodes topo) id health now /\
  node_count (topology_update_node_health topo id health now) =
    node_count topo.
Proof.
  unfold topology_update_node_health.
  destruct (healthy_total _ _ _). split; reflexivity.
Qed.

Lemma topology_step_counted topo call :
  topology_counted topo -> topology_counted (topology_step topo call).
Proof.
  unfold topology_counted, node_ids. intros [Hnd Hc].
  destruct call as [id address now|id health now]; simpl.
  - unfold topology_add_node.
    destruct (refresh_node (nodes topo) id address now) as [l|] eqn:E; simpl.
    + destruct (refresh_node_Some _ _ _ _ _ E) as [Hids _].
      rewrite Hids. split; [exact Hnd|].
      rewrite Hc. f_equal. f_equal.
      rewrite <- (length_map n_node_id l), Hids. symmetry. apply length_map.
    + split.
      * apply NoDup_cons. split; [|exact Hnd].
        rewrite list_elem_of_In. now apply (refresh_node_None _ _ address now).
      * rewrite Hc, u32_incr_mod. f_equal. lia.
  - destruct (topology_update_nodes topo id health now) as [-> ->].
    rewrite set_node_health_ids. split; [exact Hnd|].
    rewrite Hc. f_equal. f_equal.
    rewrite <- (length_map n_node_id (set_node_health _ _ _ _)),
      set_node_health_ids. symmetry. apply length_map.
Qed.

(** X11.  A topology never lists a node twice: after any run of
    [topology_add_node] and [topology_update_node_health] calls on a fresh
    topology the node identifiers are pairwise distinct and [node_count]
    is the number of nodes (modulo 2^32). *)
Theorem topology_run_ids_unique (calls : list topology_call) (now : Z) :
  let topo := topology_run (topology_create now) calls in
  NoDup (node_ids topo) /\
  node_count topo = Z.of_nat (length (nodes topo)) mod 2 ^ 32.
Proof.
  cbv zeta. unfold topology_run.
  assert (G : forall topo, topology_counted topo ->
                           topology_counted (fold_left topology_step calls topo)).
  { induction calls as [|call calls IH]; intros topo H; simpl; [exact H|].
    apply IH, topology_step_counted, H. }
  apply G. split; [apply NoDup_nil; exact I|reflexivity].
Qed.

(** X12.  [topology_add_node] makes the node known and forgets none; on a
    node already known it changes neither the identifiers, nor the count,
    nor any health score, and it never touches the overall health. *)
Theorem topology_add_node_membership (topo : network_topology_t) (id : Z)
    (address : string) (now : Z) :
  let topo' := topology_add_node topo id address now in
  In id (node_ids topo') /\
  (forall other, In other (node_ids topo) -> In other (node_ids topo')) /\
  (In id (node_ids topo) ->
   node_ids topo' = node_ids topo /\ node_count topo' = node_count topo /\
   map n_health_score (nodes topo') = map n_health_score (nodes topo)) /\
  overall_health topo' = overall_health topo.
Proof.
  cbv zeta. unfold topology_add_node, node_ids.
  destruct (refresh_node (nodes topo) id address now) as [l|] eqn:E; simpl.
  - destruct (refresh_node_Some _ _ _ _ _ E) as [Hids Hin].
    rewrite Hids. split; [exact Hin|]. split; [tauto|].
    split; [|reflexivity]. intros _. split; [reflexivity|].
    split; [reflexivity|]. now apply (refresh_node_healths _ id address now).
  - split; [now left|]. split; [intros other H; now right|].
    split; [|reflexivity].
    intros Hin. exfalso. now apply (refresh_node_None _ _ _ _ E).
Qed.

(** X13.  After [topology_update_node_health] the overall health is the
    mean of the health scores above [0.1f], summed in list order; nodes at
    or below [0.1f] count neither in the sum nor in the divisor, and with
    no node above [0.1f] (an empty topology included) it is zero.  The
    identifiers are unchanged, and for an unknown node so are the nodes. *)
Theorem topology_update_health_mean (topo : network_topology_t) (id : Z)
    (health : f32) (now : Z) :
  let topo' := topology_update_node_health topo id health now in
  let healthy := List.filter is_healthy (nodes topo') in
  overall_health topo' =
    (match healthy with
     | [] => F32.zero
     | _ => F32.div (fold_left F32.add (map n_health_score healthy) F32.zero)
                    (F32.of_Z (Z.of_nat (length healthy)))
     end) /\
  node_ids topo' = node_ids topo /\
  (~ In id (node_ids topo) -> nodes topo' = nodes topo).
Proof.
  cbv zeta. destruct (topology_update_nodes topo id health now) as [Hn _].
  unfold node_ids. rewrite Hn, set_node_health_ids.
  split; [|split; [reflexivity|apply set_node_health_unknown]].
  unfold topology_update_node_health. rewrite healthy_total_spec. simpl.
  destruct (List.filter is_healthy (set_node_health (nodes topo) id health now))
    as [|n l]; [reflexivity|].
  replace (Z.of_nat (length (n :: l)) >? 0) with true; [reflexivity|].
  symmetry. apply Z.gtb_lt. simpl length. lia.
Qed.

Lemma healthiest_from_nan (l : list network_node_t) (h0 : network_node_t) :
  n_health_score h0 = S754_nan -> healthiest_from l h0 = h0.
Proof.
  intros H. induction l as [|n l IH]; simpl; [reflexivity|].
  rewrite H, f32_gt_nan_r. exact IH.
Qed.

Lemma healthiest_from_spec (l : list network_node_t) :
  forall h0 : network_node_t,
    let h := healthiest_from l h0 in
    (h = h0 \/ In h l) /\
    (n_health_score h <> S754_nan ->
     F32.gtb (n_health_score h0) (n_health_score h) = false /\
     Forall (fun n => F32.gtb (n_health_score n) (n_health_score h) = false) l).
Proof.
  induction l as [|cur l IH]; intros h0; cbv zeta; simpl.
  - split; [now left|]. intros Hn. split; [|constructor].
    unfold F32.gtb, SFltb. rewrite f32_compare_refl by exact Hn. reflexivity.
  - specialize (IH (if F32.gtb (n_health_score cur) (n_health_score h0)
                    then cur else h0)).
    cbv zeta in IH. destruct IH as [Hin Hmax].
    set (h := healthiest_from l
                (if F32.gtb (n_health_score cur) (n_health_score h0)
                 then cur else h0)) in *.
    destruct (F32.gtb (n_health_score cur) (n_health_score h0)) eqn:E.
    + split; [destruct Hin as [->|Hin]; auto|].
      intros Hn. destruct (Hmax Hn) as [Hcur Hall].
      split; [|constructor; assumption].
      destruct (F32.gtb (n_health_score h0) (n_health_score h)) eqn:F;
        [|reflexivity].
      unfold F32.gtb in *.
      pose proof (f32_lt_trans _ _ _ F E) as T. unfold F32.ltb in T.
      congruence.
    + split; [destruct Hin as [->|Hin]; auto|].
      intros Hn. destruct (Hmax Hn) as [H0 Hall].
      split; [exact H0|]. constructor; [|exact Hall].
      destruct (F32.gtb (n_health_score cur) (n_health_score h)) eqn:F;
        [|reflexivity].
      assert (N0 : n_health_score h0 <> S754_nan).
      { intros N. apply Hn. unfold h. now rewrite (healthiest_from_nan l h0 N). }
      unfold F32.gtb in *.
      destruct (f32_lt_cotrans _ (n_health_score h0) _ F N0) as [T|T];
        unfold F32.ltb in T; congruence.
Qed.

(** X14.  [topology_find_healthiest_node] returns a node of the topology
    whose health is above [0.1f] and which no node exceeds.  It returns
    nothing only when no node is above [0.1f] (an empty topology included)
    or when a health score is NaN. *)
Theorem find_healthiest_is_maximal (topo : network_topology_t) :
  match topology_find_healthiest_node topo with
  | Some h =>
      In h (nodes topo) /\
      F32.gtb (n_health_score h) F32.lit_0_1 = true /\
      Forall (fun n => F32.gtb (n_health_score n) (n_health_score h) = false)
             (nodes topo)
  | None =>
      (exists m, In m (nodes topo) /\ n_health_score m = S754_nan) \/
      Forall (fun n => F32.gtb (n_health_score n) F32.lit_0_1 = false)
             (nodes topo)
  end.
Proof.
  unfold topology_find_healthiest_node.
  destruct (nodes topo) as [|first rest]; [right; constructor|].
  destruct (healthiest_from_spec rest first) as [Hin Hmax]. cbv zeta in *.
  set (h := healthiest_from rest first) in *.
  assert (Hin' : In h (first :: rest))
    by (destruct Hin as [->|Hin]; [now left|now right]).
  destruct (F32.gtb (n_health_score h) F32.lit_0_1) eqn:E.
  - assert (Hn : n_health_score h <> S754_nan)
      by (intros N; rewrite N, f32_gt_nan_l in E; discriminate).
    destruct (Hmax Hn) as [H0 Hall].
    split; [exact Hin'|]. split; [exact E|]. constructor; assumption.
  - assert (Hdec : n_health_score h = S754_nan \/ n_health_score h <> S754_nan)
      by (destruct (n_health_score h); (now left) || (right; discriminate)).
    destruct Hdec as [N|N]; [left; exists h; split; assumption|right].
    destruct (Hmax N) as [H0 Hall].
    assert (G : forall n,
              F32.gtb (n_health_score n) (n_health_score h) = false ->
              F32.gtb (n_health_score n) F32.lit_0_1 = false).
    { intros n Hle.
      destruct (F32.gtb (n_health_score n) F32.lit_0_1) eqn:F; [|reflexivity].
      unfold F32.gtb in *.
      destruct (f32_lt_cotrans _ (n_health_score h) _ F N) as [T|T];
        unfold F32.ltb in T; congruence. }
    constructor; [apply G, H0|].
    eapply Forall_impl; [exact Hall|]. intros n Hle. now apply G.
Qed.

(** The topology of the engine's own test: of the healths 0.9, 0.7 and 0.3
    the node found is the one at 0.9. *)
Example healthiest_of_three :
  option_map n_node_id (topology_find_healthiest_node three_nodes) = Some 1.
Proof. vm_compute. reflexivity. Qed.

(* ===================================================================== *)
(** ** Further properties: the healing rules *)
(* ===================================================================== *)

Lemma prefix_spec (p s : string) :
  String.prefix p s = true <-> exists rest, s = String.append p rest.
Proof.
  revert s. induction p as [|c p IH]; intros s; simpl.
  - split; [intros _; now exists s|intros _; destruct s; reflexivity].
  - destruct s as [|d s]; simpl;
      [split; [discriminate|intros [r H]; discriminate]|].
    destruct (Ascii.ascii_dec c d) as [E|N].
    + subst d. rewrite IH. split; intros [r H]; exists r; [now rewrite H|].
      now injection H.
    + split; [discriminate|]. intros [r H]. injection H as H1 H2. congruence.
Qed.

(** [strstr] finds the needle exactly when the haystack is some text, the
    needle, and some text. *)
Lemma strstr_spec (haystack needle : string) :
  strstr haystack needle = true <->
  exists before after,
    haystack = String.append before (String.append needle after).
Proof.
  induction haystack as [|c h IH]; cbn [strstr].
  - rewrite orb_false_r, prefix_spec. split.
    + intros [r H]. now exists EmptyString, r.
    + intros ([|d b] & a & H); [now exists a|discriminate].
  - rewrite orb_true_iff, prefix_spec, IH. split.
    + intros [[r H]|(b & a & H)].
      * now exists EmptyString, r.
      * exists (String c b), a. simpl. now rewrite H.
    + intros ([|d b] & a & H).
      * left. now exists a.
      * right. simpl in H. injection H as _ H. now exists b, a.
Qed.

Lemma best_rule_from_sound (l : list healing_rule_t) (d : string) :
  forall (b : option healing_rule_t) (s : f32) (r : healing_rule_t),
    best_rule_from l d b s = Some r ->
    b = Some r \/ (In r l /\ strstr d (r_condition r) = true).
Proof.
  induction l as [|cur l IH]; simpl; intros b s r H; [now left|].
  destruct (strstr d (r_condition cur)) eqn:E.
  - match type of H with
    | (if ?c then _ else _) = _ => destruct c
    end.
    + destruct (IH _ _ _ H) as [[= ->]|[Hin Hm]]; right; auto.
    + destruct (IH _ _ _ H) as [Hb|[Hin Hm]]; auto.
  - destruct (IH _ _ _ H) as [Hb|[Hin Hm]]; auto.
Qed.

Lemma best_rule_from_no_match (l : list healing_rule_t) (d : string) b s :
  Forall (fun r => strstr d (r_condition r) = false) l ->
  best_rule_from l d b s = b.
Proof.
  revert b s. induction l as [|cur l IH]; simpl; intros b s H; [reflexivity|].
  inversion H as [|? ? Hc Hl]; subst. rewrite Hc. now apply IH.
Qed.

(** X15.  [healing_evaluate_problem] answers [HEALING_RETRY] or the action
    of one of the engine's rules whose condition occurs in the
    description; when no rule's condition occurs in it (no rules at all
    included) the answer is [HEALING_RETRY]. *)
Theorem healing_evaluate_problem_sound (engine : autognosis_engine_t)
    (problem_desc : string) :
  (healing_evaluate_problem engine problem_desc = HEALING_RETRY \/
   exists rule, In rule (healing_rules engine) /\
                strstr problem_desc (r_condition rule) = true /\
                r_action rule = healing_evaluate_problem engine problem_desc) /\
  (Forall (fun r => strstr problem_desc (r_condition r) = false)
          (healing_rules engine) ->
   healing_evaluate_problem engine problem_desc = HEALING_RETRY).
Proof.
  unfold healing_evaluate_problem. split.
  - destruct (best_rule_from (healing_rules engine) problem_desc None F32.zero)
      as [r|] eqn:E; [|now left].
    destruct (best_rule_from_sound _ _ _ _ _ E) as [[=]|[Hin Hm]].
    right. now exists r.
  - intros H. now rewrite best_rule_from_no_match.
Qed.

(** The score of a rule that never succeeded is a zero or a NaN: it is not
    above a best score that is not negative. *)
Lemma score_of_never_succeeded (r : healing_rule_t) (best : f32) :
  never_succeeded r -> not_negative best ->
  F32.gtb (F32.mul (r_confidence r)
                   (if r_attempt_count r >? 0
                    then F32.div (F32.of_Z (r_success_count r))
                                 (F32.of_Z (r_attempt_count r))
                    else F32.lit_0_5))
          best = false.
Proof.
  intros [Ha Hs]. rewrite Hs.
  replace (r_attempt_count r >? 0) with true by (symmetry; apply Z.gtb_lt; lia).
  unfold not_negative, F32.gtb, F32.ltb, F32.mul, F32.div, F32.zero.
  change (F32.of_Z 0) with (S754_zero false).
  destruct (F32.of_Z (r_attempt_count r)) as [[]|[]| |[] m e],
           (r_confidence r) as [[]|[]| |[] m' e'],
           best as [[]|[]| |[] m'' e'']; try reflexivity; try discriminate.
Qed.

Lemma best_rule_from_skips_never_succeeded (l : list healing_rule_t)
    (d : string) :
  forall (b : option healing_rule_t) (s : f32),
    not_negative s ->
    (forall r, b = Some r -> ~ never_succeeded r) ->
    forall r, best_rule_from l d b s = Some r -> ~ never_succeeded r.
Proof.
  induction l as [|cur l IH]; simpl; intros b s Hs Hb r H; [now apply Hb|].
  destruct (strstr d (r_condition cur)); [|now apply (IH b s)].
  assert (Hdec : never_succeeded cur \/ ~ never_succeeded cur).
  { unfold never_succeeded.
    destruct (Z_lt_dec 0 (r_attempt_count cur)); [|right; tauto].
    destruct (Z.eq_dec (r_success_count cur) 0); [left|right]; tauto. }
  destruct Hdec as [Hn|Hn].
  - rewrite (score_of_never_succeeded cur s Hn Hs) in H. now apply (IH b s).
  - match type of H with
    | (if F32.gtb ?sc _ then _ else _) = _ =>
        destruct (F32.gtb sc s) eqn:E; [apply (IH (Some cur) sc)|apply (IH b s)]
    end; try assumption.
    + unfold not_negative in *.
      match goal with |- F32.ltb ?sc _ = false =>
        destruct (F32.ltb sc F32.zero) eqn:F; [|reflexivity] end.
      unfold F32.gtb in E. pose proof (f32_lt_trans _ _ _ E F). congruence.
    + intros r' [= <-]. exact Hn.
Qed.

(** X16.  A rule that was attempted and has no success on record is dead:
    when every rule whose condition occurs in the description has
    [attempt_count > 0] and [success_count = 0], whatever its confidence,
    [healing_evaluate_problem] falls back to [HEALING_RETRY]. *)
Theorem attempted_rules_are_never_selected (engine : autognosis_engine_t)
    (problem_desc : string) :
  Forall (fun r => strstr problem_desc (r_condition r) = true ->
                   never_succeeded r)
         (healing_rules engine) ->
  healing_evaluate_problem engine problem_desc = HEALING_RETRY.
Proof.
  intros Hall. unfold healing_evaluate_problem.
  destruct (best_rule_from (healing_rules engine) problem_desc None F32.zero)
    as [r|] eqn:E; [|reflexivity].
  exfalso.
  destruct (best_rule_from_sound _ _ _ _ _ E) as [[=]|[Hin Hm]].
  rewrite Forall_forall in Hall.
  apply list_elem_of_In in Hin.
  apply (best_rule_from_skips_never_succeeded
           (healing_rules engine) problem_desc None F32.zero) with (r := r);
    [reflexivity|discriminate|exact E|now apply Hall].
Qed.

Lemma attempted_rules_are_never_selected_witness :
  healing_evaluate_problem
    (fst (diagnose_and_heal_impl (autognosis_create 0) "node_failure"%string))
    "node_failure"%string = HEALING_RETRY.
Proof.
  apply (attempted_rules_are_never_selected
           (fst (diagnose_and_heal_impl (autognosis_create 0)
                                        "node_failure"%string))
           "node_failure"%string).
  repeat constructor; vm_compute; (discriminate || reflexivity).
Defined.

Lemma default_rules_action (engine : autognosis_engine_t)
    (problem_desc : string) :
  healing_rules engine = healing_rules (autognosis_create 0) ->
  healing_evaluate_problem engine problem_desc =
    if mentions problem_desc "node_failure" then HEALING_MIGRATE
    else if mentions problem_desc "connection_failed" then HEALING_REROUTE
    else HEALING_RETRY.
Proof.
  intros H. unfold healing_evaluate_problem, mentions. rewrite H.
  change (healing_rules (autognosis_create 0)) with
    [mk_rule "node_failure" HEALING_MIGRATE F32.lit_0_9 0 0;
     mk_rule "connection_failed" HEALING_REROUTE F32.lit_0_8 0 0;
     mk_rule "timeout" HEALING_RETRY F32.lit_0_7 0 0].
  cbn [best_rule_from r_condition r_attempt_count r_confidence r_success_count
       Z.gtb Z.compare].
  destruct (strstr problem_desc "node_failure");
    destruct (strstr problem_desc "connection_failed");
    destruct (strstr problem_desc "timeout"); reflexivity.
Qed.

(** X17.  With the three rules [autognosis_create] installs, still
    untried, the action depends on the description alone, in this order:
    it mentions "node_failure": [HEALING_MIGRATE]; else it mentions
    "connection_failed": [HEALING_REROUTE]; else [HEALING_RETRY], whether
    it mentions "timeout" or matches no rule. *)
Theorem default_rules_priority (engine : autognosis_engine_t)
    (problem_desc : string) :
  healing_rules engine = healing_rules (autognosis_create 0) ->
  healing_evaluate_problem engine problem_desc =
    if mentions problem_desc "node_failure" then HEALING_MIGRATE
    else if mentions problem_desc "connection_failed" then HEALING_REROUTE
    else HEALING_RETRY.
Proof. apply default_rules_action. Qed.

Lemma default_rules_priority_witness :
  healing_evaluate_problem (autognosis_create 1000)
                           "link timeout after node_failure"%string =
  if mentions "link timeout after node_failure" "node_failure"
  then HEALING_MIGRATE
  else if mentions "link timeout after node_failure" "connection_failed"
       then HEALING_REROUTE
       else HEALING_RETRY.
Proof.
  apply (default_rules_priority (autognosis_create 1000)
                                "link timeout after node_failure"%string).
  reflexivity.
Defined.

Lemma count_attempt_frame (l : list healing_rule_t) (d : string)
    (a : healing_action_t) :
  map r_condition (count_attempt l d a) = map r_condition l /\
  map r_action (count_attempt l d a) = map r_action l /\
  map r_confidence (count_attempt l d a) = map r_confidence l /\
  map r_success_count (count_attempt l d a) = map r_success_count l.
Proof.
  induction l as [|r l IH]; simpl; [tauto|].
  destruct (strstr d (r_condition r) && healing_action_eqb (r_action r) a);
    simpl; [tauto|].
  destruct IH as (-> & -> & -> & ->). tauto.
Qed.

Lemma healing_action_eqb_eq (a b : healing_action_t) :
  healing_action_eqb a b = true <-> a = b.
Proof. destruct a, b; simpl; split; congruence. Qed.

Lemma count_attempt_spec (l : list healing_rule_t) (d : string)
    (a : healing_action_t) :
  (count_attempt l d a = l /\
   Forall (fun r => strstr d (r_condition r) = true -> r_action r <> a) l) \/
  exists before r after,
    l = before ++ r :: after /\
    count_attempt l d a =
      before ++ mk_rule (r_condition r) (r_action r) (r_confidence r)
                        (r_success_count r) (u32_incr (r_attempt_count r))
             :: after /\
    strstr d (r_condition r) = true /\ r_action r = a /\
    Forall (fun r => strstr d (r_condition r) = true -> r_action r <> a) before.
Proof.
  induction l as [|r l IH]; simpl; [left; split; [reflexivity|constructor]|].
  destruct (strstr d (r_condition r)) eqn:E1;
    destruct (healing_action_eqb (r_action r) a) eqn:E2; simpl.
  - right. exists [], r, l. apply healing_action_eqb_eq in E2.
    repeat split; auto.
  - assert (N : strstr d (r_condition r) = true -> r_action r <> a).
    { intros _ F. apply healing_action_eqb_eq in F. congruence. }
    destruct IH as [[-> Hall]|(b & r' & af & -> & -> & H1 & H2 & H3)].
    + left. split; [reflexivity|now constructor].
    + right. exists (r :: b), r', af. repeat split; auto.
  - assert (N : strstr d (r_condition r) = true -> r_action r <> a)
      by (intros F; congruence).
    destruct IH as [[-> Hall]|(b & r' & af & -> & -> & H1 & H2 & H3)].
    + left. split; [reflexivity|now constructor].
    + right. exists (r :: b), r', af. repeat split; auto.
  - assert (N : strstr d (r_condition r) = true -> r_action r <> a)
      by (intros F; congruence).
    destruct IH as [[-> Hall]|(b & r' & af & -> & -> & H1 & H2 & H3)].
    + left. split; [reflexivity|now constructor].
    + right. exists (r :: b), r', af. repeat split; auto.
Qed.

(** X18.  [diagnose_and_heal_impl] returns the action
    [healing_evaluate_problem] chooses and learns by counting one attempt:
    the first rule, in list order, whose condition occurs in the problem
    and whose action is the one returned has its [attempt_count] raised by
    one; no [success_count], condition, action or confidence ever changes,
    and topology, store, self-image and load are untouched. *)
Theorem diagnose_and_heal_counts_one_attempt (engine : autognosis_engine_t)
    (problem : string) :
  let '(engine', action) := diagnose_and_heal_impl engine problem in
  action = healing_evaluate_problem engine problem /\
  map r_condition (healing_rules engine') =
    map r_condition (healing_rules engine) /\
  map r_action (healing_rules engine') = map r_action (healing_rules engine) /\
  map r_confidence (healing_rules engine') =
    map r_confidence (healing_rules engine) /\
  map r_success_count (healing_rules engine') =
    map r_success_count (healing_rules engine) /\
  ((healing_rules engine' = healing_rules engine /\
    Forall (fun r => strstr problem (r_condition r) = true ->
                     r_action r <> action)
           (healing_rules engine)) \/
   exists before r after,
     healing_rules engine = before ++ r :: after /\
     healing_rules engine' =
       before ++ mk_rule (r_condition r) (r_action r) (r_confidence r)
                         (r_success_count r) (u32_incr (r_attempt_count r))
              :: after /\
     strstr problem (r_condition r) = true /\ r_action r = action /\
     Forall (fun r => strstr problem (r_condition r) = true ->
                      r_action r <> action)
            before) /\
  topology engine' = topology engine /\
  global_knowledge engine' = global_knowledge engine /\
  self_image engine' = self_image engine /\
  cognitive_load engine' = cognitive_load engine.
Proof.
  unfold diagnose_and_heal_impl, healing_execute_action.
  cbn [healing_rules topology global_knowledge self_image cognitive_load].
  destruct (count_attempt_frame (healing_rules engine) problem
              (healing_evaluate_problem engine problem)) as (H1 & H2 & H3 & H4).
  repeat split; try assumption.
  apply count_attempt_spec.
Qed.

(** The default engine at work: the first diagnosis of "node_failure"
    migrates and counts the attempt; from then on the rule is dead and the
    same diagnosis retries. *)
Example diagnose_twice :
  let '(engine1, action1) :=
    diagnose_and_heal_impl (autognosis_create 0) "node_failure"%string in
  let '(engine2, action2) :=
    diagnose_and_heal_impl engine1 "node_failure"%string in
  action1 = HEALING_MIGRATE /\ action2 = HEALING_RETRY /\
  map r_attempt_count (healing_rules engine2) = [1; 0; 0].
Proof. vm_compute. repeat split. Qed.

(* ===================================================================== *)
(** ** Further properties: the coordinator *)
(* ===================================================================== *)

Lemma adaptive_behavior_frame (c : hive_coordinator_t) :
  let c' := hive_adaptive_behavior_update c in
  node_id c' = node_id c /\ sequence_counter c' = sequence_counter c /\
  last_heartbeat c' = last_heartbeat c /\
  last_knowledge_sync c' = last_knowledge_sync c /\
  topology (local_engine c') = topology (local_engine c) /\
  global_knowledge (local_engine c') = global_knowledge (local_engine c) /\
  healing_rules (local_engine c') = healing_rules (local_engine c) /\
  collective_intelligence_score c' = hive_calculate_emergence_factor c.
Proof.
  cbv zeta. unfold hive_adaptive_behavior_update.
  repeat match goal with
  | |- context [if ?x then _ else _] => destruct x
  end; cbn; tauto.
Qed.

Lemma emergence_factor_at_most_one (c : hive_coordinator_t) :
  at_most_one (hive_calculate_emergence_factor c).
Proof.
  unfold at_most_one, hive_calculate_emergence_factor.
  match goal with
  | |- F32.gtb (if F32.gtb ?e _ then _ else _) _ = false =>
      destruct (F32.gtb e F32.lit_1_0) eqn:E; [reflexivity|exact E]
  end.
Qed.

Lemma cycle_heartbeat_result (c : hive_coordinator_t) (now : Z) :
  cycle_heartbeat c now =
  if now - last_heartbeat c >=? 30 then
    (set_last_heartbeat
       (set_sequence_counter c (u32_incr (sequence_counter c))) now,
     [mk_message (node_id c) 0 HIVE_MSG_HEARTBEAT
                 (u32_incr (sequence_counter c)) now 0 []])
  else (c, []).
Proof. unfold cycle_heartbeat. destruct (_ >=? 30); reflexivity. Qed.

Section MoreHiveProperties.

Variable pf : platform.

Lemma update_collective_topology_frame (c : hive_coordinator_t) (now : Z) :
  let c' := hive_update_collective_topology pf c now in
  node_id c' = node_id c /\ sequence_counter c' = sequence_counter c /\
  last_heartbeat c' = last_heartbeat c /\
  last_knowledge_sync c' = last_knowledge_sync c /\
  collective_intelligence_score c' = collective_intelligence_score c /\
  topology (local_engine c') = topology (local_engine c) /\
  self_image (local_engine c') = self_image (local_engine c) /\
  healing_rules (local_engine c') = healing_rules (local_engine c).
Proof.
  cbv zeta. unfold hive_update_collective_topology.
  repeat match goal with
  | |- context [match ?x with _ => _ end] => destruct x eqn:?
  end; cbn; tauto.
Qed.

Lemma cycle_knowledge_sync_frame (c : hive_coordinator_t) (now : Z) :
  let c' := cycle_knowledge_sync pf c now in
  node_id c' = node_id c /\ sequence_counter c' = sequence_counter c /\
  last_heartbeat c' = last_heartbeat c /\
  topology (local_engine c') = topology (local_engine c) /\
  healing_rules (local_engine c') = healing_rules (local_engine c).
Proof.
  cbv zeta. unfold cycle_knowledge_sync, update_collective_knowledge_impl.
  destruct (now - last_knowledge_sync c >=? 60); [|tauto].
  destruct (adaptive_behavior_frame (hive_update_collective_topology pf c now))
    as (H1 & H2 & H3 & _ & H5 & _ & H7 & _).
  destruct (update_collective_topology_frame c now)
    as (G1 & G2 & G3 & _ & _ & G6 & _ & G8).
  cbv zeta in *. cbn [node_id sequence_counter last_heartbeat local_engine
                      set_last_knowledge_sync].
  repeat split; congruence.
Qed.

Lemma cycle_share_result (c : hive_coordinator_t) (now : Z) :
  cycle_share pf c now =
  match first_important_recent (store_atoms c) now with
  | Some a =>
      (set_sequence_counter c (u32_incr (sequence_counter c)),
       [mk_message (node_id c) 0 HIVE_MSG_KNOWLEDGE_SHARE
                   (u32_incr (sequence_counter c)) now sizeof_knowledge_packet_t
                   (knowledge_packet_bytes pf (knowledge_packet_from_atom a))])
  | None => (c, [])
  end.
Proof.
  unfold cycle_share, store_atoms.
  destruct (global_knowledge (local_engine c)) as [space|]; [|reflexivity].
  destruct (first_important_recent (atoms space) now) as [a|] eqn:E;
    [|reflexivity].
  destruct (first_important_recent_Some _ _ _ E) as (l1 & l2 & _ & _ & Ha).
  apply important_recent_inv in Ha as [Ha _].
  unfold share_knowledge_impl.
  rewrite (f32_gt_0_8_gt_0_7 _ Ha). apply broadcast_knowledge_sends.
Qed.

(** X19.  Heartbeat timing: a cycle sends a heartbeat exactly when at
    least 30 seconds have passed since the last one; it is then one
    broadcast heartbeat with an empty payload, numbered with the next
    sequence number, and [last_heartbeat] becomes the time of the cycle;
    otherwise none is sent and [last_heartbeat] stays. *)
Theorem cycle_heartbeat_timing (c : hive_coordinator_t) (now : Z) :
  let '(c', sent) := hive_coordinator_process_cycle pf c now in
  List.filter is_heartbeat sent =
    (if now - last_heartbeat c >=? 30
     then [mk_message (node_id c) 0 HIVE_MSG_HEARTBEAT
                      (u32_incr (sequence_counter c)) now 0 []]
     else []) /\
  last_heartbeat c' =
    (if now - last_heartbeat c >=? 30 then now else last_heartbeat c).
Proof.
  unfold hive_coordinator_process_cycle.
  rewrite cycle_heartbeat_result.
  destruct (now - last_heartbeat c >=? 30);
    match goal with
    | |- context [cycle_knowledge_sync pf ?c0 now] =>
        destruct (cycle_knowledge_sync_frame c0 now) as (_ & _ & Hhb & _);
        cbv zeta in Hhb;
        rewrite (cycle_share_result (cycle_knowledge_sync pf c0 now) now);
        destruct (first_important_recent _ now)
    end; cbn [app List.filter is_heartbeat m_type last_heartbeat
              set_sequence_counter set_last_heartbeat] in *;
    split; try reflexivity; exact Hhb.
Qed.

(** X20.  One cycle sends at most two messages, a heartbeat and a knowledge
    share, both broadcasts from this node; they carry consecutive sequence
    numbers continuing the node's counter (modulo 2^32), and the counter
    ends at the last number used. *)
Theorem cycle_sends_at_most_two_broadcasts (c : hive_coordinator_t) (now : Z) :
  let '(c', sent) := hive_coordinator_process_cycle pf c now in
  (length sent <= 2)%nat /\
  Forall (fun m => sender_id m = node_id c /\ recipient_id m = 0 /\
                   (m_type m = HIVE_MSG_HEARTBEAT \/
                    m_type m = HIVE_MSG_KNOWLEDGE_SHARE))
         sent /\
  map sequence_number sent =
    map (fun k => Nat.iter k u32_incr (sequence_counter c))
        (seq 1 (length sent)) /\
  sequence_counter c' = Nat.iter (length sent) u32_incr (sequence_counter c) /\
  node_id c' = node_id c.
Proof.
  unfold hive_coordinator_process_cycle.
  rewrite cycle_heartbeat_result.
  destruct (now - last_heartbeat c >=? 30);
    match goal with
    | |- context [cycle_knowledge_sync pf ?c0 now] =>
        destruct (cycle_knowledge_sync_frame c0 now) as (Hid & Hseq & _);
        cbv zeta in Hid, Hseq;
        rewrite (cycle_share_result (cycle_knowledge_sync pf c0 now) now);
        destruct (first_important_recent _ now)
    end;
    cbn [app length map seq Nat.iter nat_rect sequence_number sequence_counter
         node_id set_sequence_counter set_last_heartbeat] in *;
    rewrite ?Hid, ?Hseq;
    (split; [lia|]); (split; [repeat constructor; auto|]);
    repeat split; reflexivity.
Qed.

(** X21.  Knowledge-sync timing: a cycle synchronises exactly when at
    least 60 seconds have passed since the last synchronisation.  It then
    sets [last_knowledge_sync] to the time of the cycle and the collective
    score to a value that is not above one; otherwise the cycle leaves the
    score and the whole engine (store, topology, autonomy) unchanged. *)
Theorem cycle_sync_timing_and_score (c : hive_coordinator_t) (now : Z) :
  let c' := fst (hive_coordinator_process_cycle pf c now) in
  last_knowledge_sync c' =
    (if now - last_knowledge_sync c >=? 60 then now else last_knowledge_sync c) /\
  ((now - last_knowledge_sync c >=? 60) = true ->
   at_most_one (collective_intelligence_score c')) /\
  ((now - last_knowledge_sync c >=? 60) = false ->
   collective_intelligence_score c' = collective_intelligence_score c /\
   local_engine c' = local_engine c).
Proof.
  cbv zeta. unfold hive_coordinator_process_cycle.
  rewrite cycle_heartbeat_result.
  assert (S : forall c0,
            last_knowledge_sync c0 = last_knowledge_sync c ->
            collective_intelligence_score c0 = collective_intelligence_score c ->
            local_engine c0 = local_engine c ->
            let c1 := cycle_knowledge_sync pf c0 now in
            last_knowledge_sync c1 =
              (if now - last_knowledge_sync c >=? 60 then now
               else last_knowledge_sync c) /\
            ((now - last_knowledge_sync c >=? 60) = true ->
             at_most_one (collective_intelligence_score c1)) /\
            ((now - last_knowledge_sync c >=? 60) = false ->
             collective_intelligence_score c1 = collective_intelligence_score c /\
             local_engine c1 = local_engine c)).
  { intros c0 H1 H2 H3. cbv zeta. unfold cycle_knowledge_sync. rewrite H1.
    destruct (now - last_knowledge_sync c >=? 60).
    - split; [reflexivity|]. split; [intros _|discriminate].
      unfold update_collective_knowledge_impl.
      cbn [collective_intelligence_score set_last_knowledge_sync].
      destruct (adaptive_behavior_frame (hive_update_collective_topology pf c0 now))
        as (_ & _ & _ & _ & _ & _ & _ & ->).
      apply emergence_factor_at_most_one.
    - split; [exact H1|]. split; [discriminate|]. intros _. now split. }
  destruct (now - last_heartbeat c >=? 30);
    match goal with
    | |- context [cycle_knowledge_sync pf ?c0 now] =>
        specialize (S c0 eq_refl eq_refl eq_refl); cbv zeta in S;
        rewrite (cycle_share_result (cycle_knowledge_sync pf c0 now) now);
        destruct (first_important_recent _ now)
    end; cbn [fst]; exact S.
Qed.

(** X22.  The fact a synchronisation creates is the fact the cycle shares:
    when the synchronisation is due and the formatted name of the
    collective health is new to the store, the cycle puts the
    collective-health fact (importance 1, stamped with the time of the
    cycle) at the head of the store and broadcasts exactly that fact as
    its one KnowledgeShare, ahead of every older fact. *)
Theorem sync_created_fact_is_shared (c : hive_coordinator_t) (now : Z)
    (topo : network_topology_t) (space : atom_space_t) :
  now - last_knowledge_sync c >= 60 ->
  topology (local_engine c) = Some topo ->
  global_knowledge (local_engine c) = Some space ->
  atomspace_find_atom space (snprintf_collective_health pf (overall_health topo))
    = None ->
  let '(c', sent) := hive_coordinator_process_cycle pf c now in
  store_atoms c' = collective_fact pf topo space now :: atoms space /\
  exists m,
    List.filter is_knowledge_share sent = [m] /\
    recipient_id m = 0 /\
    data m = knowledge_packet_bytes
               pf (knowledge_packet_from_atom
                     (collective_fact pf topo space now)).
Proof.
  intros Hdue Ht Hk Hfind.
  unfold hive_coordinator_process_cycle.
  assert (S : forall c0,
            last_knowledge_sync c0 = last_knowledge_sync c ->
            local_engine c0 = local_engine c ->
            store_atoms (cycle_knowledge_sync pf c0 now) =
              collective_fact pf topo space now :: atoms space).
  { intros c0 H1 H2. unfold cycle_knowledge_sync. rewrite H1.
    replace (now - last_knowledge_sync c >=? 60) with true
      by (symmetry; apply Z.geb_le; lia).
    unfold store_atoms, update_collective_knowledge_impl.
    cbn [local_engine set_last_knowledge_sync].
    destruct (adaptive_behavior_frame (hive_update_collective_topology pf c0 now))
      as (_ & _ & _ & _ & _ & -> & _).
    unfold hive_update_collective_topology. rewrite H2, Ht, Hk.
    unfold atomspace_add_atom. rewrite Hfind. reflexivity. }
  assert (F : first_important_recent
                (collective_fact pf topo space now :: atoms space) now =
              Some (collective_fact pf topo space now)).
  { cbn [first_important_recent].
    destruct (update_truth_value_frame
                (mk_atom (next_id space) ATOM_CONCEPT
                   (strncpy 255 (snprintf_collective_health pf (overall_health topo)))
                   F32.lit_0_5 F32.lit_0_5 F32.lit_1_0 now)
                (overall_health topo) F32.lit_0_9 now) as (_ & _ & _ & Hi & Hts).
    cbv zeta in Hi, Hts. unfold collective_fact. rewrite Hi, Hts.
    cbn [a_importance]. rewrite Z.sub_diag. reflexivity. }
  rewrite cycle_heartbeat_result.
  destruct (now - last_heartbeat c >=? 30);
    match goal with
    | |- context [cycle_knowledge_sync pf ?c0 now] =>
        specialize (S c0 eq_refl eq_refl);
        rewrite (cycle_share_result (cycle_knowledge_sync pf c0 now) now);
        rewrite S, F
    end;
    (split; [exact S|]); eexists; cbn [app List.filter is_knowledge_share
      is_heartbeat m_type]; repeat split; reflexivity.
Qed.

(** X23.  A received heartbeat registers its sender: with a topology in
    place, the topology afterwards holds a node with the sender's
    identifier, health [1.0f] and last seen at the time of receipt; every
    node known before is still known, a sender already known adds no
    node, nothing is sent, and store and sequence counter are untouched. *)
Theorem receive_heartbeat_registers_sender (c : hive_coordinator_t)
    (m : hive_message_t) (now : Z) (topo : network_topology_t) :
  m_type m = HIVE_MSG_HEARTBEAT ->
  topology (local_engine c) = Some topo ->
  let '(c', sent) := receive_message_impl pf c m now in
  sent = [] /\
  sequence_counter c' = sequence_counter c /\
  global_knowledge (local_engine c') = global_knowledge (local_engine c) /\
  exists topo',
    topology (local_engine c') = Some topo' /\
    (exists n, In n (nodes topo') /\ n_node_id n = sender_id m /\
               n_health_score n = F32.lit_1_0 /\ n_last_seen n = now) /\
    (forall id, In id (node_ids topo) -> In id (node_ids topo')) /\
    (In (sender_id m) (node_ids topo) -> node_ids topo' = node_ids topo).
Proof.
  intros Hty Ht. unfold receive_message_impl. rewrite Hty, Ht.
  repeat split.
  cbn [local_engine set_local_engine topology set_topology].
  eexists. split; [reflexivity|].
  destruct (topology_update_nodes
              (topology_add_node topo (sender_id m) "remote_node" now)
              (sender_id m) F32.lit_1_0 now) as [Hn _].
  unfold node_ids. rewrite Hn, set_node_health_ids.
  assert (Hadd : In (sender_id m)
                    (map n_node_id
                       (nodes (topology_add_node topo (sender_id m)
                                                 "remote_node" now))) /\
                 (forall id, In id (map n_node_id (nodes topo)) ->
                             In id (map n_node_id
                                      (nodes (topology_add_node
                                                topo (sender_id m)
                                                "remote_node" now)))) /\
                 (In (sender_id m) (map n_node_id (nodes topo)) ->
                  map n_node_id
                      (nodes (topology_add_node topo (sender_id m)
                                                "remote_node" now)) =
                  map n_node_id (nodes topo))).
  { unfold topology_add_node.
    destruct (refresh_node (nodes topo) (sender_id m) "remote_node" now)
      as [l|] eqn:E; cbn [nodes].
    - destruct (refresh_node_Some _ _ _ _ _ E) as [Hids Hin].
      rewrite Hids. tauto.
    - split; [now left|]. split; [intros id H; now right|].
      intros Hin. exfalso. now apply (refresh_node_None _ _ _ _ E). }
  destruct Hadd as (H1 & H2 & H3).
  split; [|split; assumption].
  apply set_node_health_known. exact H1.
Qed.

(** X24.  A broadcast fact reaches the peer's store: if the cast of the
    message buffer reads back the packet that was copied in, the message
    [hive_broadcast_knowledge] sends passes the receiver's length check,
    and after [receive_message_impl] the receiver's store holds, under the
    fact's name, an atom with the fact's importance and timestamp; the
    receiver sends nothing. *)
Theorem broadcast_is_integrated_by_receiver (sender receiver : hive_coordinator_t)
    (fact : atom_t) (now now' : Z) (space : atom_space_t) (m : hive_message_t) :
  knowledge_packet_of_bytes
    pf (knowledge_packet_bytes pf (knowledge_packet_from_atom fact)) =
  knowledge_packet_from_atom fact ->
  global_knowledge (local_engine receiver) = Some space ->
  In m (snd (hive_broadcast_knowledge pf sender fact now)) ->
  let '(receiver', sent) := receive_message_impl pf receiver m now' in
  sent = [] /\
  exists space' i a,
    global_knowledge (local_engine receiver') = Some space' /\
    atomspace_find_atom space' (strncpy 255 (a_name fact)) = Some i /\
    atoms space' !! i = Some a /\
    a_name a = strncpy 255 (a_name fact) /\
    a_importance a = a_importance fact /\
    a_timestamp a = a_timestamp fact.
Proof.
  intros Hrt Hk Hin.
  rewrite broadcast_knowledge_sends in Hin. cbn [snd] in Hin.
  destruct Hin as [<-|[]].
  unfold receive_message_impl. cbn [m_type data_length data].
  rewrite Z.eqb_refl, Hrt.
  unfold process_shared_knowledge_impl. rewrite Hk.
  pose proof (packet_to_atom_result space (knowledge_packet_from_atom fact) now'
                (strncpy_length 255 (a_name fact))) as G.
  destruct (knowledge_packet_to_atom space (knowledge_packet_from_atom fact) now')
    as [space' i].
  destruct G as ((a & Ha & Hn & Hi & Hts) & Hfind & _).
  split; [reflexivity|]. exists space', i, a.
  cbn [local_engine set_local_engine global_knowledge set_global_knowledge].
  repeat split; assumption.
Qed.

(** X25.  An escalated problem is answered by a peer: if the cast of the
    message buffer reads back the request that was copied in, a peer that
    receives the HealingRequest [hive_coordinate_healing] broadcast sends
    exactly one HealingResponse, addressed to the requesting node alone,
    carrying the request's problem id, the peer's own evaluation of the
    (255-character) description and the confidence [0.8f]. *)
Theorem healing_request_is_answered_by_peer (requester peer : hive_coordinator_t)
    (problem_desc : string) (now now' : Z) (problem_id_counter : Z)
    (m : hive_message_t) :
  let request :=
    mk_request problem_id_counter (strncpy 255 problem_desc) F32.lit_0_8
               (node_id requester) now
               (healing_evaluate_problem (local_engine requester) problem_desc) in
  healing_request_of_bytes pf (healing_request_bytes pf request) = request ->
  In m (snd (fst (hive_coordinate_healing pf requester problem_desc now
                                          problem_id_counter))) ->
  exists response,
    snd (receive_message_impl pf peer m now') =
      [mk_message (node_id peer) (node_id requester) HIVE_MSG_HEALING_RESPONSE
                  (u32_incr (sequence_counter peer)) now'
                  sizeof_healing_response_t
                  (healing_response_bytes pf response)] /\
    rs_problem_id response = problem_id_counter /\
    responding_node response = node_id peer /\
    recommended_action response =
      healing_evaluate_problem (local_engine peer) (strncpy 255 problem_desc) /\
    rs_confidence response = F32.lit_0_8.
Proof.
  cbv zeta. intros Hrt Hin.
  unfold hive_coordinate_healing, healing_request_create in Hin.
  destruct (healing_evaluate_problem (local_engine requester) problem_desc);
    cbn [fst snd] in Hin; rewrite ?request_healing_assistance_sends in Hin;
    cbn [snd] in Hin; try contradiction;
    (destruct Hin as [<-|[]];
     unfold receive_message_impl; cbn [m_type data_length data];
     cbn [problem_id problem_description severity requesting_node request_time]
       in *;
     rewrite Z.eqb_refl, Hrt;
     rewrite respond_to_healing_request_sends; cbn [snd];
     eexists; repeat split; reflexivity).
Qed.

(** X26.  With the default rules, untried, [hive_coordinate_healing]
    escalates exactly the problems that mention neither "node_failure" nor
    "connection_failed": it then broadcasts one HealingRequest carrying
    the current problem id, the first 255 characters of the description,
    severity [0.8f] and the suggestion [HEALING_RETRY].  In both cases it
    uses up one problem id and leaves the engine as it was. *)
Theorem default_rules_escalation (c : hive_coordinator_t)
    (problem_desc : string) (now : Z) (problem_id_counter : Z) :
  healing_rules (local_engine c) = healing_rules (autognosis_create 0) ->
  let '(c', sent, counter') :=
    hive_coordinate_healing pf c problem_desc now problem_id_counter in
  counter' = u32_incr problem_id_counter /\
  local_engine c' = local_engine c /\
  sent =
    if mentions problem_desc "node_failure"
       || mentions problem_desc "connection_failed"
    then []
    else [mk_message (node_id c) 0 HIVE_MSG_HEALING_REQUEST
                     (u32_incr (sequence_counter c)) now
                     sizeof_healing_request_t
                     (healing_request_bytes
                        pf (mk_request problem_id_counter
                                       (strncpy 255 problem_desc) F32.lit_0_8
                                       (node_id c) now HEALING_RETRY))].
Proof.
  intros H. unfold hive_coordinate_healing, healing_request_create.
  rewrite (default_rules_action _ problem_desc H).
  destruct (mentions problem_desc "node_failure");
    destruct (mentions problem_desc "connection_failed");
    cbn [orb]; rewrite ?request_healing_assistance_sends;
    repeat split; reflexivity.
Qed.


(** X28.  The coordinator never trips over its own payload bound: every
    message a cycle, a healing escalation or a receive hands to the
    transport carries the payload length of its type (the size of the
    knowledge packet, of the healing request, of the healing response, or
    zero), and that length is within the 512-byte buffer. *)
Theorem coordinator_messages_carry_payload (c : hive_coordinator_t)
    (m : hive_message_t) (problem_desc : string) (now : Z)
    (problem_id_counter : Z) :
  let complete := fun msg : hive_message_t =>
    data_length msg = payload_length (m_type msg) /\
    0 <= data_length msg <= sizeof_data /\
    (m_type msg = HIVE_MSG_HEARTBEAT \/ 0 < data_length msg) in
  Forall complete (snd (hive_coordinator_process_cycle pf c now)) /\
  Forall complete
         (snd (fst (hive_coordinate_healing pf c problem_desc now
                                            problem_id_counter))) /\
  Forall complete (snd (receive_message_impl pf c m now)).
Proof.
  cbv zeta. split; [|split].
  - unfold hive_coordinator_process_cycle. rewrite cycle_heartbeat_result.
    destruct (now - last_heartbeat c >=? 30);
      match goal with
      | |- context [cycle_knowledge_sync pf ?c0 now] =>
          rewrite (cycle_share_result (cycle_knowledge_sync pf c0 now) now);
          destruct (first_important_recent _ now)
      end; cbn [snd app]; repeat constructor;
      cbn [data_length m_type]; vm_compute; auto; discriminate.
  - unfold hive_coordinate_healing, healing_request_create.
    destruct (healing_evaluate_problem (local_engine c) problem_desc);
      cbn [fst snd]; rewrite ?request_healing_assistance_sends; cbn [snd];
      repeat constructor; cbn [data_length m_type]; vm_compute; auto;
      discriminate.
  - rewrite receive_sends.
    destruct (answers_healing_request m); [|constructor].
    rewrite respond_to_healing_request_sends. cbn [snd].
    repeat constructor; cbn [data_length m_type]; vm_compute; auto;
      discriminate.
Qed.

End MoreHiveProperties.

(* ===================================================================== *)
(** ** The further properties at concrete inputs *)
(* ===================================================================== *)

Lemma sync_created_fact_is_shared_witness :
  let '(c', sent) :=
    hive_coordinator_process_cycle example_platform node_1001 1060 in
  store_atoms c' =
    collective_fact example_platform (topology_create 1000)
                    atomspace_create 1060 :: atoms atomspace_create /\
  exists m,
    List.filter is_knowledge_share sent = [m] /\
    recipient_id m = 0 /\
    data m = knowledge_packet_bytes
               example_platform
               (knowledge_packet_from_atom
                  (collective_fact example_platform (topology_create 1000)
                                   atomspace_create 1060)).
Proof.
  apply (sync_created_fact_is_shared
           example_platform node_1001 1060 (topology_create 1000)
           atomspace_create);
    [vm_compute; discriminate|reflexivity|reflexivity|reflexivity].
Defined.

Lemma receive_heartbeat_registers_sender_witness :
  let '(c', sent) :=
    receive_message_impl example_platform node_1001 heartbeat_envelope 1010 in
  sent = [] /\
  sequence_counter c' = sequence_counter node_1001 /\
  global_knowledge (local_engine c') =
    global_knowledge (local_engine node_1001) /\
  exists topo',
    topology (local_engine c') = Some topo' /\
    (exists n, In n (nodes topo') /\
               n_node_id n = sender_id heartbeat_envelope /\
               n_health_score n = F32.lit_1_0 /\ n_last_seen n = 1010) /\
    (forall id, In id (node_ids (topology_create 1000)) ->
                In id (node_ids topo')) /\
    (In (sender_id heartbeat_envelope) (node_ids (topology_create 1000)) ->
     node_ids topo' = node_ids (topology_create 1000)).
Proof.
  apply (receive_heartbeat_registers_sender
           example_platform node_1001 heartbeat_envelope 1010
           (topology_create 1000)); reflexivity.
Defined.

Lemma broadcast_is_integrated_by_receiver_witness :
  let '(receiver', sent) :=
    receive_message_impl
      (echo_platform threat_fact timeout_request) node_2002
      (mk_message 1001 0 HIVE_MSG_KNOWLEDGE_SHARE 1 1010 280
                  (repeat Byte.x00 280))
      1011 in
  sent = [] /\
  exists space' i a,
    global_knowledge (local_engine receiver') = Some space' /\
    atomspace_find_atom space' (strncpy 255 (a_name threat_fact)) = Some i /\
    atoms space' !! i = Some a /\
    a_name a = strncpy 255 (a_name threat_fact) /\
    a_importance a = a_importance threat_fact /\
    a_timestamp a = a_timestamp threat_fact.
Proof.
  apply (broadcast_is_integrated_by_receiver
           (echo_platform threat_fact timeout_request) node_1001 node_2002
           threat_fact 1010 1011 atomspace_create);
    [reflexivity|reflexivity|left; reflexivity].
Defined.

Lemma healing_request_is_answered_by_peer_witness :
  exists response,
    snd (receive_message_impl
           (echo_platform threat_fact timeout_request) node_2002
           (mk_message 1001 0 HIVE_MSG_HEALING_REQUEST 1 1010 288
                       (repeat Byte.x00 288))
           1011) =
      [mk_message (node_id node_2002) (node_id node_1001)
                  HIVE_MSG_HEALING_RESPONSE
                  (u32_incr (sequence_counter node_2002)) 1011
                  sizeof_healing_response_t
                  (healing_response_bytes
                     (echo_platform threat_fact timeout_request) response)] /\
    rs_problem_id response = 1 /\
    responding_node response = node_id node_2002 /\
    recommended_action response =
      healing_evaluate_problem (local_engine node_2002)
                               (strncpy 255 "timeout") /\
    rs_confidence response = F32.lit_0_8.
Proof.
  apply (healing_request_is_answered_by_peer
           (echo_platform threat_fact timeout_request) node_1001 node_2002
           "timeout"%string 1010 1011 1);
    [reflexivity|left; reflexivity].
Defined.

Lemma default_rules_escalation_witness :
  let '(c', sent, counter') :=
    hive_coordinate_healing example_platform node_1001
                            "connection_failed on uplink"%string 1010 7 in
  counter' = u32_incr 7 /\
  local_engine c' = local_engine node_1001 /\
  sent =
    if mentions "connection_failed on uplink" "node_failure"
       || mentions "connection_failed on uplink" "connection_failed"
    then []
    else [mk_message (node_id node_1001) 0 HIVE_MSG_HEALING_REQUEST
                     (u32_incr (sequence_counter node_1001)) 1010
                     sizeof_healing_request_t
                     (healing_request_bytes
                        example_platform
                        (mk_request 7 (strncpy 255 "connection_failed on uplink")
                                    F32.lit_0_8 (node_id node_1001) 1010
                                    HEALING_RETRY))].
Proof.
  apply (default_rules_escalation
           example_platform node_1001 "connection_failed on uplink"%string
           1010 7).
  reflexivity.
Defined.

